(** * Gemini Voice Notepad: recording session and request pipeline

    A shallow embedding of the application's core:
    - [services/geminiService.ts]: module initialisation, [transcribeAudio],
      [reformatText];
    - the [App] component: [handleSendAudio], [handleReformat], [handleClear];
    - the [RecordingPane] component: [cleanup], [monitorAudioLevel],
      [setupMediaRecorder], [startTimer], [handleRecord], [handlePause],
      [handleStop], [handleCancel], [handleSend], and the [disabled] attributes of
      its buttons;
    - the [disabled] attribute and the render conditions of [ResultsPane].

    React state and refs are fields of one [World] record; every handler is a
    function on worlds, and reads the state of the render it was created in,
    which for a handler just called is the current state.  An [await]
    suspends the handler: the suspended continuation is stored as a [Task]
    together with the values its closure captured, and a later event of the
    environment resumes it.  Time is the value of [Date.now()], moved on by
    the environment. *)

From Stdlib Require Import ZArith NArith String Ascii List Bool Lia.
From stdpp Require Import base option list.
Import ListNotations.
Open Scope Z_scope.

#[local] Set Warnings "-register-all".

(* ===================================================================== *)
(** ** JavaScript values and the two built-ins the service uses *)
(* ===================================================================== *)

Module Js.

(** Texts are Rocq strings read as the UTF-8 bytes of the JavaScript string. *)
Definition bytes (s : string) : list N := map N_of_ascii (list_ascii_of_string s).
Definition text (l : list N) : string := string_of_list_ascii (map ascii_of_N l).

(** What [JSON.parse] can return, plus [undefined] (the value of a missing
    property).  A number keeps its lexeme: the double it denotes is only
    needed for its truthiness, see [number_is_zero].  An object keeps its
    members in source order, duplicates included. *)
Inductive JsValue : Type :=
| JUndefined
| JNull
| JBool (b : bool)
| JNumber (lexeme : string)
| JString (s : string)
| JArray (items : list JsValue)
| JObject (members : list (string * JsValue)).

(** *** [String.prototype.trim] *)

(** WhiteSpace and LineTerminator code points, by their UTF-8 encodings:
    U+0009..U+000D and U+0020; U+00A0; U+1680, U+2000..U+200A, U+2028, U+2029,
    U+202F, U+205F, U+3000, U+FEFF. *)
Definition ws1 (a : N) : bool :=
  ((9 <=? a) && (a <=? 13) || (a =? 32))%N.

Definition ws2 (a b : N) : bool :=
  ((a =? 0xC2) && (b =? 0xA0))%N.

Definition ws3 (a b c : N) : bool :=
  ((a =? 0xE1) && (b =? 0x9A) && (c =? 0x80)
   || (a =? 0xE2) && (b =? 0x80)
      && ((0x80 <=? c) && (c <=? 0x8A) || (c =? 0xA8) || (c =? 0xA9) || (c =? 0xAF))
   || (a =? 0xE2) && (b =? 0x81) && (c =? 0x9F)
   || (a =? 0xE3) && (b =? 0x80) && (c =? 0x80)
   || (a =? 0xEF) && (b =? 0xBB) && (c =? 0xBF))%N.

(** Strips white space from the head of [s]; with [backwards] the list is a
    reversed text, so the bytes of one code point come last byte first. *)
Fixpoint strip (backwards : bool) (s : list N) : list N :=
  match s with
  | [] => []
  | a :: t =>
      if ws1 a then strip backwards t else
      match t with
      | [] => s
      | b :: u =>
          if (if backwards then ws2 b a else ws2 a b) then strip backwards u else
          match u with
          | [] => s
          | c :: v =>
              if (if backwards then ws3 c b a else ws3 a b c)
              then strip backwards v else s
          end
      end
  end.

Definition trim (s : string) : string :=
  text (rev (strip true (rev (strip false (bytes s))))).

(** *** [JSON.parse]: lexer *)

Inductive Token : Type :=
| TLBrace | TRBrace | TLBracket | TRBracket | TColon | TComma
| TString (s : string)
| TNumber (lexeme : string)
| TTrue | TFalse | TNull.

(** Where the lexer stands inside a number:
    [-] seen, leading [0], integer digits, [.] seen, fraction digits,
    [e] seen, exponent sign seen, exponent digits. *)
Inductive NumPhase : Type :=
| NMinus | NZero | NInt | NDot | NFrac | NExp | NExpSign | NExpInt.

(** Lexer states; accumulators hold bytes in reverse. *)
Inductive Lex : Type :=
| LIdle
| LStr (acc : list N)
| LEsc (acc : list N)
| LHex (acc : list N) (remaining : nat) (v : N)
| LNum (ph : NumPhase) (acc : list N)
| LWord (rest : list N) (t : Token).

Definition is_digit (c : N) : bool := ((0x30 <=? c) && (c <=? 0x39))%N.

Definition hex_value (c : N) : option N :=
  if is_digit c then Some (c - 0x30)%N
  else if ((0x41 <=? c) && (c <=? 0x46))%N then Some (c - 0x41 + 10)%N
  else if ((0x61 <=? c) && (c <=? 0x66))%N then Some (c - 0x61 + 10)%N
  else None.

(** UTF-8 (generalised to lone surrogates) of a code point, reversed. *)
Definition utf8_rev (cp : N) : list N :=
  (if cp <? 0x80 then [cp]
   else if cp <? 0x800 then
     [0x80 + N.land cp 0x3F; 0xC0 + N.shiftr cp 6]
   else if cp <? 0x10000 then
     [0x80 + N.land cp 0x3F; 0x80 + N.land (N.shiftr cp 6) 0x3F; 0xE0 + N.shiftr cp 12]
   else
     [0x80 + N.land cp 0x3F; 0x80 + N.land (N.shiftr cp 6) 0x3F;
      0x80 + N.land (N.shiftr cp 12) 0x3F; 0xF0 + N.shiftr cp 18])%N.

(** Appends the code unit of a [\uXXXX] escape.  A low surrogate directly
    after a high surrogate (which only an escape can have put there) joins it
    into one supplementary code point. *)
Definition push_unit (u : N) (acc : list N) : list N :=
  match acc with
  | c3 :: c2 :: c1 :: acc' =>
      if ((0xDC00 <=? u) && (u <=? 0xDFFF)
          && (c1 =? 0xED) && (0xA0 <=? c2) && (c2 <=? 0xAF))%N
      then
        let hi := (0xD000 + N.shiftl (N.land c2 0x3F) 6 + N.land c3 0x3F)%N in
        utf8_rev (0x10000 + N.shiftl (hi - 0xD800) 10 + (u - 0xDC00))%N ++ acc'
      else utf8_rev u ++ acc
  | _ => utf8_rev u ++ acc
  end.

Definition num_accepting (ph : NumPhase) : bool :=
  match ph with
  | NZero | NInt | NFrac | NExpInt => true
  | _ => false
  end.

Definition is_e (c : N) : bool := ((c =? 0x45) || (c =? 0x65))%N.

(** The phase after reading [c] inside a number, if [c] can continue it. *)
Definition num_next (ph : NumPhase) (c : N) : option NumPhase :=
  match ph with
  | NMinus =>
      if (c =? 0x30)%N then Some NZero else if is_digit c then Some NInt else None
  | NZero =>
      if (c =? 0x2E)%N then Some NDot else if is_e c then Some NExp else None
  | NInt =>
      if is_digit c then Some NInt
      else if (c =? 0x2E)%N then Some NDot else if is_e c then Some NExp else None
  | NDot => if is_digit c then Some NFrac else None
  | NFrac =>
      if is_digit c then Some NFrac else if is_e c then Some NExp else None
  | NExp =>
      if ((c =? 0x2B) || (c =? 0x2D))%N then Some NExpSign
      else if is_digit c then Some NExpInt else None
  | NExpSign => if is_digit c then Some NExpInt else None
  | NExpInt => if is_digit c then Some NExpInt else None
  end.

(** One character read between tokens; tokens are collected in reverse. *)
Definition lex_idle (c : N) (toks : list Token) : option (Lex * list Token) :=
  (if (c =? 0x20) || (c =? 0x09) || (c =? 0x0A) || (c =? 0x0D) then Some (LIdle, toks)
   else if c =? 0x7B then Some (LIdle, TLBrace :: toks)
   else if c =? 0x7D then Some (LIdle, TRBrace :: toks)
   else if c =? 0x5B then Some (LIdle, TLBracket :: toks)
   else if c =? 0x5D then Some (LIdle, TRBracket :: toks)
   else if c =? 0x3A then Some (LIdle, TColon :: toks)
   else if c =? 0x2C then Some (LIdle, TComma :: toks)
   else if c =? 0x22 then Some (LStr [], toks)
   else if c =? 0x2D then Some (LNum NMinus [c], toks)
   else if c =? 0x30 then Some (LNum NZero [c], toks)
   else if is_digit c then Some (LNum NInt [c], toks)
   else if c =? 0x74 then Some (LWord (bytes "rue") TTrue, toks)
   else if c =? 0x66 then Some (LWord (bytes "alse") TFalse, toks)
   else if c =? 0x6E then Some (LWord (bytes "ull") TNull, toks)
   else None)%N.

Definition lex_step (st : Lex * list Token) (c : N) : option (Lex * list Token) :=
  let '(l, toks) := st in
  match l with
  | LIdle => lex_idle c toks
  | LStr acc =>
      if (c =? 0x22)%N then Some (LIdle, TString (text (rev acc)) :: toks)
      else if (c =? 0x5C)%N then Some (LEsc acc, toks)
      else if (c <? 0x20)%N then None
      else Some (LStr (c :: acc), toks)
  | LEsc acc =>
      (if (c =? 0x22) || (c =? 0x5C) || (c =? 0x2F) then Some (LStr (c :: acc), toks)
       else if c =? 0x62 then Some (LStr (0x08 :: acc), toks)
       else if c =? 0x66 then Some (LStr (0x0C :: acc), toks)
       else if c =? 0x6E then Some (LStr (0x0A :: acc), toks)
       else if c =? 0x72 then Some (LStr (0x0D :: acc), toks)
       else if c =? 0x74 then Some (LStr (0x09 :: acc), toks)
       else if c =? 0x75 then Some (LHex acc 3 0, toks)
       else None)%N
  | LHex acc remaining v =>
      match hex_value c with
      | None => None
      | Some d =>
          let v' := (16 * v + d)%N in
          match remaining with
          | O => Some (LStr (push_unit v' acc), toks)
          | S k => Some (LHex acc k v', toks)
          end
      end
  | LNum ph acc =>
      match num_next ph c with
      | Some ph' => Some (LNum ph' (c :: acc), toks)
      | None =>
          if num_accepting ph
          then lex_idle c (TNumber (text (rev acc)) :: toks)
          else None
      end
  | LWord rest t =>
      match rest with
      | [] => lex_idle c (t :: toks)
      | r :: rest' =>
          if (c =? r)%N
          then Some (match rest' with [] => (LIdle, t :: toks) | _ => (LWord rest' t, toks) end)
          else None
      end
  end.

Fixpoint lex_run (st : Lex * list Token) (s : list N) : option (Lex * list Token) :=
  match s with
  | [] => Some st
  | c :: s' =>
      match lex_step st c with
      | Some st' => lex_run st' s'
      | None => None
      end
  end.

Definition lex_finish (st : Lex * list Token) : option (list Token) :=
  let '(l, toks) := st in
  match l with
  | LIdle => Some (rev toks)
  | LNum ph acc =>
      if num_accepting ph then Some (rev (TNumber (text (rev acc)) :: toks)) else None
  | _ => None
  end.

Definition tokenize (s : string) : option (list Token) :=
  match lex_run (LIdle, []) (bytes s) with
  | Some st => lex_finish st
  | None => None
  end.

(** *** [JSON.parse]: parser

    A pushdown automaton over the tokens: the stack holds the arrays and
    objects that are still open. *)

Inductive Frame : Type :=
| FArray (items : list JsValue)                       (* reversed *)
| FObject (members : list (string * JsValue)) (key : string).   (* reversed *)

Inductive Expect : Type :=
| EValue                  (* a value *)
| EArrayFirst             (* a value or a closing bracket *)
| EArrayNext              (* a comma or a closing bracket *)
| EObjectFirst (members : list (string * JsValue))    (* a key or a closing brace *)
| EObjectKey (members : list (string * JsValue))      (* a key *)
| EObjectColon (members : list (string * JsValue)) (key : string)
| EObjectNext             (* a comma or a closing brace *)
| EDone (v : JsValue).

(** A value [v] is complete: it goes into the innermost open container. *)
Definition reduce (v : JsValue) (stack : list Frame) : Expect * list Frame :=
  match stack with
  | [] => (EDone v, [])
  | FArray items :: stack' => (EArrayNext, FArray (v :: items) :: stack')
  | FObject members key :: stack' => (EObjectNext, FObject ((key, v) :: members) key :: stack')
  end.

Definition begin_value (t : Token) (stack : list Frame) : option (Expect * list Frame) :=
  match t with
  | TLBrace => Some (EObjectFirst [], stack)
  | TLBracket => Some (EArrayFirst, FArray [] :: stack)
  | TString s => Some (reduce (JString s) stack)
  | TNumber l => Some (reduce (JNumber l) stack)
  | TTrue => Some (reduce (JBool true) stack)
  | TFalse => Some (reduce (JBool false) stack)
  | TNull => Some (reduce JNull stack)
  | TRBrace | TRBracket | TColon | TComma => None
  end.

Definition parse_step (st : Expect * list Frame) (t : Token) : option (Expect * list Frame) :=
  let '(e, stack) := st in
  match e, t, stack with
  | EValue, _, _ => begin_value t stack
  | EArrayFirst, TRBracket, FArray items :: stack' => Some (reduce (JArray (rev items)) stack')
  | EArrayFirst, _, _ => begin_value t stack
  | EArrayNext, TComma, _ => Some (EValue, stack)
  | EArrayNext, TRBracket, FArray items :: stack' => Some (reduce (JArray (rev items)) stack')
  | EObjectFirst members, TRBrace, _ => Some (reduce (JObject (rev members)) stack)
  | EObjectFirst members, TString k, _ => Some (EObjectColon members k, stack)
  | EObjectKey members, TString k, _ => Some (EObjectColon members k, stack)
  | EObjectColon members k, TColon, _ => Some (EValue, FObject members k :: stack)
  | EObjectNext, TComma, FObject members _ :: stack' => Some (EObjectKey members, stack')
  | EObjectNext, TRBrace, FObject members _ :: stack' => Some (reduce (JObject (rev members)) stack')
  | _, _, _ => None
  end.

Fixpoint parse_run (st : Expect * list Frame) (ts : list Token) : option (Expect * list Frame) :=
  match ts with
  | [] => Some st
  | t :: ts' =>
      match parse_step st t with
      | Some st' => parse_run st' ts'
      | None => None
      end
  end.

(** [JSON.parse(s)]: [None] stands for the [SyntaxError] it throws. *)
Definition JSON_parse (s : string) : option JsValue :=
  match tokenize s with
  | None => None
  | Some ts =>
      match parse_run (EValue, []) ts with
      | Some (EDone v, []) => Some v
      | _ => None
      end
  end.

(** *** Truthiness and property access *)

(** Scanning a number lexeme: mantissa digits [m] (the point dropped), the
    count of fraction digits, and the exponent. *)
Record NumScan : Type := {
  mantissa : N;
  fraction_digits : Z;
  in_fraction : bool;
  in_exponent : bool;
  exponent_negative : bool;
  exponent : Z
}.

Definition scan_char (n : NumScan) (c : N) : NumScan :=
  if is_digit c then
    if in_exponent n then
      {| mantissa := mantissa n; fraction_digits := fraction_digits n;
         in_fraction := in_fraction n; in_exponent := true;
         exponent_negative := exponent_negative n;
         exponent := 10 * exponent n + Z.of_N (c - 0x30) |}
    else
      {| mantissa := 10 * mantissa n + (c - 0x30);
         fraction_digits := if in_fraction n then fraction_digits n + 1 else fraction_digits n;
         in_fraction := in_fraction n; in_exponent := false;
         exponent_negative := false; exponent := 0 |}
  else if (c =? 0x2E)%N then
    {| mantissa := mantissa n; fraction_digits := 0; in_fraction := true;
       in_exponent := false; exponent_negative := false; exponent := 0 |}
  else if is_e c then
    {| mantissa := mantissa n; fraction_digits := fraction_digits n;
       in_fraction := in_fraction n; in_exponent := true;
       exponent_negative := false; exponent := 0 |}
  else if (c =? 0x2D)%N && in_exponent n then
    {| mantissa := mantissa n; fraction_digits := fraction_digits n;
       in_fraction := in_fraction n; in_exponent := true;
       exponent_negative := true; exponent := 0 |}
  else n.

Definition scan_number (lexeme : string) : NumScan :=
  fold_left scan_char (bytes lexeme)
    {| mantissa := 0; fraction_digits := 0; in_fraction := false;
       in_exponent := false; exponent_negative := false; exponent := 0 |}.

(** Whether the double nearest to the decimal [m * 10^e] is zero: the
    decimal is at most [2^-1075], half the least positive double (a tie
    rounds to the even neighbour, zero). *)
Definition number_is_zero (lexeme : string) : bool :=
  let n := scan_number lexeme in
  let e := (if exponent_negative n then - exponent n else exponent n) - fraction_digits n in
  if (mantissa n =? 0)%N then true
  else if 0 <=? e then false
  else Z.of_N (mantissa n) * 2 ^ 1075 <=? 10 ^ (- e).

(** [!!v] *)
Definition truthy (v : JsValue) : bool :=
  match v with
  | JUndefined | JNull => false
  | JBool b => b
  | JNumber l => negb (number_is_zero l)
  | JString s => negb (String.eqb s EmptyString)
  | JArray _ | JObject _ => true
  end.

(** The last member named [k] wins, as in the object [JSON.parse] builds. *)
Fixpoint own_property (k : string) (members : list (string * JsValue)) : JsValue :=
  match members with
  | [] => JUndefined
  | (k', v) :: rest =>
      match own_property k rest with
      | JUndefined => if String.eqb k k' then v else JUndefined
      | found => found
      end
  end.

(** [v.content] for a truthy [v].  Only an object parsed from JSON can own a
    property of that name; on a primitive or an array the lookup reaches the
    prototype and yields [undefined]. *)
Definition content (v : JsValue) : JsValue :=
  match v with
  | JObject members => own_property "content" members
  | _ => JUndefined
  end.

End Js.

Import Js.

(* ===================================================================== *)
(** ** [types.ts] and the objects of the browser *)
(* ===================================================================== *)

Inductive RecordingState : Type := Idle | Recording | Paused | Stopped.

Inductive ReformatFormat : Type :=
| Email | Memo | BlogPost | Summary | DevelopmentPrompt | AIPrompt
| MeetingMinutes | SocialMediaPost | PressRelease | ToDoList.

Inductive ReformatStyle : Type := BusinessAppropriate | Formal | Informal.

Record ReformatOptions : Type := {
  format : ReformatFormat;
  style : ReformatStyle
}.

(** A [Blob]: its bytes and its [type]. *)
Record Blob : Type := {
  data : list N;
  type : string
}.

(** [new Blob(parts, { type })] *)
Definition new_Blob (parts : list Blob) (t : string) : Blob :=
  {| data := concat (map data parts); type := t |}.

(** [MediaRecorder.state] *)
Inductive RecorderState : Type := inactive | recording | paused.

(** What a script can throw or a promise can reject with. *)
Inductive Exn : Type :=
| Error (message : string)
| TypeError
| SyntaxError
| InvalidStateError
| NotSupportedError
| SecurityError
| ApiError.

(* ===================================================================== *)
(** ** [services/geminiService.ts] *)
(* ===================================================================== *)

Module GeminiService.

Record GoogleGenAI : Type := { apiKey : string }.

(** Lines 4-8, run when the module is loaded.  [API_KEY] is
    [process.env.API_KEY]: [None] when the variable is not set.  The empty
    string is falsy too. *)
Definition load (API_KEY : option string) : Exn + GoogleGenAI :=
  match API_KEY with
  | None => inl (Error "API_KEY environment variable not set")
  | Some k =>
      if String.eqb k EmptyString then inl (Error "API_KEY environment variable not set")
      else inr {| apiKey := k |}
  end.

(** The [contents] of a request.  [Parts] is [[audioPart, textPart]], the
    text part being the fixed transcription instruction; [Prompt] is the
    reformat template with its three holes filled. *)
Inductive Contents : Type :=
| Parts (inlineData_data : string) (inlineData_mimeType : string)
| Prompt (originalText : JsValue) (format : ReformatFormat) (style : ReformatStyle).

(** One call of [ai.models.generateContent]; both calls ask for
    [application/json] constrained by [transcriptionSchema]. *)
Record GenerateContent : Type := {
  client : GoogleGenAI;
  model : string;
  contents : Contents
}.

(** How a call ends: the promise rejects, or it yields a response whose
    [text] is a string or [undefined]. *)
Inductive Settled : Type :=
| Rejected
| Response (text : option string).

(** [transcribeAudio] up to its [await] (lines 26-48). *)
Definition transcribeAudio_call (ai : GoogleGenAI) (base64Audio mimeType : string)
  : GenerateContent :=
  {| client := ai; model := "gemini-2.5-flash"; contents := Parts base64Audio mimeType |}.

(** [response.text.trim()] then [JSON.parse(jsonString) as Transcription]:
    the cast checks nothing. *)
Definition parse_response (r : Settled) : Exn + JsValue :=
  match r with
  | Rejected => inl ApiError
  | Response None => inl TypeError
  | Response (Some t) =>
      let jsonString := trim t in
      match JSON_parse jsonString with
      | Some v => inr v
      | None => inl SyntaxError
      end
  end.

(** [transcribeAudio] after its [await] (lines 50-51). *)
Definition transcribeAudio_result (r : Settled) : Exn + JsValue := parse_response r.

(** [reformatText] up to its [await] (lines 55-73). *)
Definition reformatText_call (ai : GoogleGenAI) (originalText : JsValue)
    (format : ReformatFormat) (style : ReformatStyle) : GenerateContent :=
  {| client := ai; model := "gemini-2.5-pro"; contents := Prompt originalText format style |}.

(** [reformatText] after its [await] (lines 75-76). *)
Definition reformatText_result (r : Settled) : Exn + JsValue := parse_response r.

End GeminiService.

Import GeminiService.

(* ===================================================================== *)
(** ** The world: React state, refs, and the browser around them *)
(* ===================================================================== *)

Record Loading : Type := {
  transcription : bool;
  reformatting : bool
}.

(** [audioLevel]: 0, or the average of the analyser's frequency bins (kept as
    the bins it averages). *)
Inductive Level : Type :=
| Zero
| Average (bins : list N).

(** A suspended handler and what its closure holds. *)
Inductive Task : Type :=
| AwaitBlobToBase64 (audioBlob : Blob)     (* handleSendAudio, line 22 *)
| AwaitTranscribe (audioBlob : Blob)       (* handleSendAudio, line 23 *)
| AwaitReformat (isLoading : Loading)      (* handleReformat, line 41 *)
| AwaitUserMedia (elapsedTime : Z)         (* handleRecord, line 94 *)
| Finished.

(** State of the [App] component. *)
Record AppState : Type := {
  isLoading : Loading;
  error : option string;
  transcriptionResult : JsValue;       (* [JNull] is [null] *)
  reformattedResult : JsValue
}.

(** State of the [RecordingPane] component. *)
Record PaneState : Type := {
  recordingState : RecordingState;
  elapsedTime : Z;
  audioLevel : Level;
  audioBlob : option Blob
}.

(** Refs of the [RecordingPane] component.  [mediaRecorderRef] holds the
    state of the recorder it points to; [analyserRef] is whether it is set.
    [audioContextRef] and [audioSourceRef] are written but never read back
    for a decision other than closing the context, and are left out. *)
Record PaneRefs : Type := {
  mediaRecorderRef : option RecorderState;
  audioChunksRef : list Blob;
  timerIntervalRef : option nat;
  analyserRef : bool;
  animationFrameRef : option nat
}.

(** The browser: the clock [Date.now()], the running [setInterval] timers
    with the [startTime] their callback closed over, the requested animation
    frames, the next timer or frame handle, the started recorders whose [stop]
    event has not been delivered, the analyser's current data, the suspended
    handlers, and two logs: the remote calls made and the blobs built. *)
Record Browser : Type := {
  now : Z;
  intervals : list (nat * Z);
  frames : list nat;
  nextHandle : nat;
  liveRecorders : nat;
  frequencyData : list N;
  tasks : list Task;
  requests : list GenerateContent;
  artifacts : list Blob
}.

Record World : Type := {
  ai : GoogleGenAI;
  app : AppState;
  pane : PaneState;
  refs : PaneRefs;
  browser : Browser
}.

Notation "w |> f" := (f w) (at level 45, left associativity, only parsing).

Definition with_app (f : AppState -> AppState) (w : World) : World :=
  {| ai := ai w; app := f (app w); pane := pane w; refs := refs w; browser := browser w |}.
Definition with_pane (f : PaneState -> PaneState) (w : World) : World :=
  {| ai := ai w; app := app w; pane := f (pane w); refs := refs w; browser := browser w |}.
Definition with_refs (f : PaneRefs -> PaneRefs) (w : World) : World :=
  {| ai := ai w; app := app w; pane := pane w; refs := f (refs w); browser := browser w |}.
Definition with_browser (f : Browser -> Browser) (w : World) : World :=
  {| ai := ai w; app := app w; pane := pane w; refs := refs w; browser := f (browser w) |}.

(** *** State setters of [App] *)

Definition setIsLoading (v : Loading) : World -> World :=
  with_app (fun a =>
    {| isLoading := v; error := error a;
       transcriptionResult := transcriptionResult a; reformattedResult := reformattedResult a |}).
Definition setError (v : option string) : World -> World :=
  with_app (fun a =>
    {| isLoading := isLoading a; error := v;
       transcriptionResult := transcriptionResult a; reformattedResult := reformattedResult a |}).
Definition setTranscriptionResult (v : JsValue) : World -> World :=
  with_app (fun a =>
    {| isLoading := isLoading a; error := error a;
       transcriptionResult := v; reformattedResult := reformattedResult a |}).
Definition setReformattedResult (v : JsValue) : World -> World :=
  with_app (fun a =>
    {| isLoading := isLoading a; error := error a;
       transcriptionResult := transcriptionResult a; reformattedResult := v |}).

(** *** State setters of [RecordingPane] *)

Definition setRecordingState (v : RecordingState) : World -> World :=
  with_pane (fun p =>
    {| recordingState := v; elapsedTime := elapsedTime p;
       audioLevel := audioLevel p; audioBlob := audioBlob p |}).
Definition setElapsedTime (v : Z) : World -> World :=
  with_pane (fun p =>
    {| recordingState := recordingState p; elapsedTime := v;
       audioLevel := audioLevel p; audioBlob := audioBlob p |}).
Definition setAudioLevel (v : Level) : World -> World :=
  with_pane (fun p =>
    {| recordingState := recordingState p; elapsedTime := elapsedTime p;
       audioLevel := v; audioBlob := audioBlob p |}).
Definition setAudioBlob (v : option Blob) : World -> World :=
  with_pane (fun p =>
    {| recordingState := recordingState p; elapsedTime := elapsedTime p;
       audioLevel := audioLevel p; audioBlob := v |}).

(** *** Assignments to the refs *)

Definition set_mediaRecorderRef (v : option RecorderState) : World -> World :=
  with_refs (fun r =>
    {| mediaRecorderRef := v; audioChunksRef := audioChunksRef r;
       timerIntervalRef := timerIntervalRef r; analyserRef := analyserRef r;
       animationFrameRef := animationFrameRef r |}).
Definition set_audioChunksRef (v : list Blob) : World -> World :=
  with_refs (fun r =>
    {| mediaRecorderRef := mediaRecorderRef r; audioChunksRef := v;
       timerIntervalRef := timerIntervalRef r; analyserRef := analyserRef r;
       animationFrameRef := animationFrameRef r |}).
Definition set_timerIntervalRef (v : option nat) : World -> World :=
  with_refs (fun r =>
    {| mediaRecorderRef := mediaRecorderRef r; audioChunksRef := audioChunksRef r;
       timerIntervalRef := v; analyserRef := analyserRef r;
       animationFrameRef := animationFrameRef r |}).
Definition set_analyserRef (v : bool) : World -> World :=
  with_refs (fun r =>
    {| mediaRecorderRef := mediaRecorderRef r; audioChunksRef := audioChunksRef r;
       timerIntervalRef := timerIntervalRef r; analyserRef := v;
       animationFrameRef := animationFrameRef r |}).
Definition set_animationFrameRef (v : option nat) : World -> World :=
  with_refs (fun r =>
    {| mediaRecorderRef := mediaRecorderRef r; audioChunksRef := audioChunksRef r;
       timerIntervalRef := timerIntervalRef r; analyserRef := analyserRef r;
       animationFrameRef := v |}).

(** *** The browser's side *)

Definition set_now (v : Z) : World -> World :=
  with_browser (fun b =>
    {| now := v; intervals := intervals b; frames := frames b; nextHandle := nextHandle b;
       liveRecorders := liveRecorders b; frequencyData := frequencyData b;
       tasks := tasks b; requests := requests b; artifacts := artifacts b |}).
Definition set_intervals (v : list (nat * Z)) : World -> World :=
  with_browser (fun b =>
    {| now := now b; intervals := v; frames := frames b; nextHandle := nextHandle b;
       liveRecorders := liveRecorders b; frequencyData := frequencyData b;
       tasks := tasks b; requests := requests b; artifacts := artifacts b |}).
Definition set_frames (v : list nat) : World -> World :=
  with_browser (fun b =>
    {| now := now b; intervals := intervals b; frames := v; nextHandle := nextHandle b;
       liveRecorders := liveRecorders b; frequencyData := frequencyData b;
       tasks := tasks b; requests := requests b; artifacts := artifacts b |}).
Definition set_nextHandle (v : nat) : World -> World :=
  with_browser (fun b =>
    {| now := now b; intervals := intervals b; frames := frames b; nextHandle := v;
       liveRecorders := liveRecorders b; frequencyData := frequencyData b;
       tasks := tasks b; requests := requests b; artifacts := artifacts b |}).
Definition set_liveRecorders (v : nat) : World -> World :=
  with_browser (fun b =>
    {| now := now b; intervals := intervals b; frames := frames b; nextHandle := nextHandle b;
       liveRecorders := v; frequencyData := frequencyData b;
       tasks := tasks b; requests := requests b; artifacts := artifacts b |}).
Definition set_frequencyData (v : list N) : World -> World :=
  with_browser (fun b =>
    {| now := now b; intervals := intervals b; frames := frames b; nextHandle := nextHandle b;
       liveRecorders := liveRecorders b; frequencyData := v;
       tasks := tasks b; requests := requests b; artifacts := artifacts b |}).
Definition set_tasks (v : list Task) : World -> World :=
  with_browser (fun b =>
    {| now := now b; intervals := intervals b; frames := frames b; nextHandle := nextHandle b;
       liveRecorders := liveRecorders b; frequencyData := frequencyData b;
       tasks := v; requests := requests b; artifacts := artifacts b |}).
Definition set_requests (v : list GenerateContent) : World -> World :=
  with_browser (fun b =>
    {| now := now b; intervals := intervals b; frames := frames b; nextHandle := nextHandle b;
       liveRecorders := liveRecorders b; frequencyData := frequencyData b;
       tasks := tasks b; requests := v; artifacts := artifacts b |}).
Definition set_artifacts (v : list Blob) : World -> World :=
  with_browser (fun b =>
    {| now := now b; intervals := intervals b; frames := frames b; nextHandle := nextHandle b;
       liveRecorders := liveRecorders b; frequencyData := frequencyData b;
       tasks := tasks b; requests := requests b; artifacts := v |}).

(** The handler running now reaches an [await]: it becomes the newest task. *)
Definition suspend (t : Task) (w : World) : World :=
  w |> set_tasks (tasks (browser w) ++ [t]).

(** Task [i] moves on to its next [await], or ends. *)
Definition resume (i : nat) (t : Task) (w : World) : World :=
  w |> set_tasks (<[i := t]> (tasks (browser w))).

(** [ai.models.generateContent(...)] is called. *)
Definition generateContent (call : GenerateContent) (w : World) : World :=
  w |> set_requests (requests (browser w) ++ [call]).

Fixpoint assoc (id : nat) (l : list (nat * Z)) : option Z :=
  match l with
  | [] => None
  | (k, v) :: l' => if Nat.eqb id k then Some v else assoc id l'
  end.

Definition remove_key (id : nat) (l : list (nat * Z)) : list (nat * Z) :=
  List.filter (fun kv => negb (Nat.eqb id (fst kv))) l.

Definition remove_handle (id : nat) (l : list nat) : list nat :=
  List.filter (fun k => negb (Nat.eqb id k)) l.

(** [window.setInterval(callback, 1000)]: the callback is identified by the
    [startTime] it closed over.  Returns the handle in [timerIntervalRef], as
    line 80 assigns it. *)
Definition setInterval (startTime : Z) (w : World) : World :=
  let id := nextHandle (browser w) in
  w |> set_intervals (intervals (browser w) ++ [(id, startTime)])
    |> set_nextHandle (S id)
    |> set_timerIntervalRef (Some id).

Definition clearInterval (id : nat) (w : World) : World :=
  w |> set_intervals (remove_key id (intervals (browser w))).

(** [animationFrameRef.current = requestAnimationFrame(monitorAudioLevel)] *)
Definition requestAnimationFrame (w : World) : World :=
  let id := nextHandle (browser w) in
  w |> set_frames (frames (browser w) ++ [id])
    |> set_nextHandle (S id)
    |> set_animationFrameRef (Some id).

Definition cancelAnimationFrame (id : nat) (w : World) : World :=
  w |> set_frames (remove_handle id (frames (browser w))).

(** [if (ref.current) f(ref.current)]: a handle is a positive number, so a
    ref that holds one is truthy. *)
Definition if_set (ref : option nat) (f : nat -> World -> World) (w : World) : World :=
  match ref with
  | Some id => f id w
  | None => w
  end.

(* ===================================================================== *)
(** ** The [App] component *)
(* ===================================================================== *)

(** [handleSendAudio], lines 16-22: up to [await blobToBase64(audioBlob)]. *)
Definition handleSendAudio (audioBlob : Blob) (w : World) : World :=
  w |> setIsLoading {| transcription := true; reformatting := false |}
    |> setError None
    |> setTranscriptionResult JNull
    |> setReformattedResult JNull
    |> suspend (AwaitBlobToBase64 audioBlob).

(** Lines 25-30: the [catch] and [finally] of [handleSendAudio]. *)
Definition handleSendAudio_catch (i : nat) (w : World) : World :=
  w |> setError (Some "Failed to transcribe audio. Please try again."%string)
    |> setIsLoading {| transcription := false; reformatting := false |}
    |> resume i Finished.

(** [blobToBase64] settles.  The helper ([utils/blob]) is not among the
    sources: what it resolves to is given by the event that settles it, and
    [None] is a rejection.  On success line 23 calls
    [transcribeAudio(base64Audio, audioBlob.type)], which runs up to its own
    [await]. *)
Definition handleSendAudio_base64 (i : nat) (audioBlob : Blob)
    (base64Audio : option string) (w : World) : World :=
  match base64Audio with
  | Some base64Audio =>
      w |> generateContent (transcribeAudio_call (ai w) base64Audio (type audioBlob))
        |> resume i (AwaitTranscribe audioBlob)
  | None => handleSendAudio_catch i w
  end.

(** The remote call of [transcribeAudio] settles: lines 24-30. *)
Definition handleSendAudio_settled (i : nat) (r : Settled) (w : World) : World :=
  match transcribeAudio_result r with
  | inr result =>
      w |> setTranscriptionResult result
        |> setIsLoading {| transcription := false; reformatting := false |}
        |> resume i Finished
  | inl _ => handleSendAudio_catch i w
  end.

(** [handleReformat], lines 34-41.  The callback is rebuilt whenever
    [transcriptionResult] or [isLoading] changes, so the one the rendered form
    calls reads the current state; what it read stays in its closure. *)
Definition handleReformat (options : ReformatOptions) (w : World) : World :=
  let isLoading := isLoading (app w) in
  let transcriptionResult := transcriptionResult (app w) in
  if negb (truthy transcriptionResult) then w
  else
    w |> setIsLoading {| transcription := transcription isLoading; reformatting := true |}
      |> setError None
      |> setReformattedResult JNull
      |> generateContent
           (reformatText_call (ai w) (content transcriptionResult) (format options) (style options))
      |> suspend (AwaitReformat isLoading).

(** The remote call of [reformatText] settles: lines 42-48, with the
    [isLoading] of the closure. *)
Definition handleReformat_settled (i : nat) (isLoading : Loading) (r : Settled)
    (w : World) : World :=
  match reformatText_result r with
  | inr result =>
      w |> setReformattedResult result
        |> setIsLoading {| transcription := transcription isLoading; reformatting := false |}
        |> resume i Finished
  | inl _ =>
      w |> setError (Some "Failed to reformat text. Please try again."%string)
        |> setIsLoading {| transcription := transcription isLoading; reformatting := false |}
        |> resume i Finished
  end.

Definition handleClear (w : World) : World :=
  w |> setTranscriptionResult JNull
    |> setReformattedResult JNull
    |> setError None
    |> setIsLoading {| transcription := false; reformatting := false |}.

(* ===================================================================== *)
(** ** The [RecordingPane] component *)
(* ===================================================================== *)

(** The methods of [MediaRecorder], on its [state]: [start] needs an inactive
    recorder, [pause] and [resume] an active one, and throw otherwise; [stop]
    on an inactive recorder returns at once.  On an inactive recorder [start]
    can still throw, a [NotSupportedError] or a [SecurityError]: whether it
    does is the browser's decision, [refusal]. *)
Definition MediaRecorder_start (refusal : option Exn) (s : RecorderState)
  : Exn + RecorderState :=
  match s with
  | inactive =>
      match refusal with
      | Some e => inl e
      | None => inr recording
      end
  | _ => inl InvalidStateError
  end.

Definition MediaRecorder_pause (s : RecorderState) : Exn + RecorderState :=
  match s with
  | inactive => inl InvalidStateError
  | _ => inr paused
  end.

Definition MediaRecorder_resume (s : RecorderState) : Exn + RecorderState :=
  match s with
  | inactive => inl InvalidStateError
  | _ => inr recording
  end.

Definition MediaRecorder_stop (s : RecorderState) : Exn + RecorderState :=
  inr inactive.

(** [mediaRecorderRef.current?.method()] *)
Definition optional_call (method : RecorderState -> Exn + RecorderState) (w : World)
  : Exn + World :=
  match mediaRecorderRef (refs w) with
  | None => inr w
  | Some s =>
      match method s with
      | inr s' => inr (w |> set_mediaRecorderRef (Some s'))
      | inl e => inl e
      end
  end.

(** [cleanup], lines 24-35.  Stopping the stream's tracks and closing the
    audio context act on objects the model does not follow. *)
Definition cleanup (w : World) : World :=
  w |> if_set (timerIntervalRef (refs w)) clearInterval
    |> if_set (animationFrameRef (refs w)) cancelAnimationFrame
    |> set_mediaRecorderRef None.

(** [monitorAudioLevel], lines 41-48. *)
Definition monitorAudioLevel (w : World) : World :=
  if negb (analyserRef (refs w)) then w
  else
    w |> setAudioLevel (Average (frequencyData (browser w)))
      |> requestAnimationFrame.

(** [setupMediaRecorder] once [getUserMedia] has resolved, lines 53-70: a
    new, inactive recorder with its two handlers, and an analyser. *)
Definition setupMediaRecorder_granted (w : World) : World :=
  w |> set_mediaRecorderRef (Some inactive)
    |> set_analyserRef true.

(** The callback of line 81. *)
Definition interval_callback (startTime : Z) (w : World) : World :=
  w |> setElapsedTime ((now (browser w) - startTime) / 1000).

(** [startTimer], lines 78-83; [elapsedTime] is the state the closure of
    the calling handler saw. *)
Definition startTimer (elapsedTime : Z) (w : World) : World :=
  let startTime := now (browser w) - elapsedTime * 1000 in
  w |> setInterval startTime.

(** [handleRecord], lines 85-94: the whole resume branch, and the other
    branch up to [await setupMediaRecorder()]. *)
Definition handleRecord (w : World) : World :=
  match recordingState (pane w) with
  | Paused =>
      match optional_call MediaRecorder_resume w with
      | inl _ => w
      | inr w' =>
          w' |> setRecordingState Recording
             |> startTimer (elapsedTime (pane w))
             |> monitorAudioLevel
      end
  | _ =>
      w |> setAudioBlob None
        |> set_audioChunksRef []
        |> suspend (AwaitUserMedia (elapsedTime (pane w)))
  end.

(** [getUserMedia] settles: the rest of [setupMediaRecorder] and lines
    95-101 of [handleRecord].  A refusal of the microphone is logged and
    alerted, nothing more.  When [start()] throws (line 96) the handler ends
    there, its promise rejected and unhandled: the new recorder stays in the
    ref, inactive.  A recorder that has started will deliver its [stop]
    event. *)
Definition handleRecord_settled (i : nat) (elapsedTime : Z) (granted : bool)
    (refusal : option Exn) (w : World) : World :=
  if granted then
    let w1 := setupMediaRecorder_granted w in
    match optional_call (MediaRecorder_start refusal) w1 with
    | inl _ => w1 |> resume i Finished
    | inr w2 =>
        w2 |> set_liveRecorders (S (liveRecorders (browser w2)))
           |> setRecordingState Recording
           |> setElapsedTime 0
           |> startTimer elapsedTime
           |> monitorAudioLevel
           |> resume i Finished
    end
  else w |> resume i Finished.

(** [handlePause], lines 105-110. *)
Definition handlePause (w : World) : World :=
  match optional_call MediaRecorder_pause w with
  | inl _ => w
  | inr w' =>
      w' |> if_set (timerIntervalRef (refs w')) clearInterval
         |> if_set (animationFrameRef (refs w')) cancelAnimationFrame
         |> setRecordingState Paused
  end.

(** [handleStop], lines 112-118. *)
Definition handleStop (w : World) : World :=
  match optional_call MediaRecorder_stop w with
  | inl _ => w
  | inr w' =>
      w' |> setRecordingState Stopped
         |> if_set (timerIntervalRef (refs w')) clearInterval
         |> if_set (animationFrameRef (refs w')) cancelAnimationFrame
         |> setAudioLevel Zero
  end.

(** [handleCancel], lines 120-127. *)
Definition handleCancel (w : World) : World :=
  w |> cleanup
    |> setRecordingState Idle
    |> setElapsedTime 0
    |> setAudioLevel Zero
    |> setAudioBlob None
    |> set_audioChunksRef [].

(** [handleSend], lines 129-136; [onSend] is [handleSendAudio]. *)
Definition handleSend (w : World) : World :=
  match audioBlob (pane w) with
  | Some audioBlob =>
      w |> handleSendAudio audioBlob
        |> setRecordingState Idle
        |> setAudioBlob None
        |> setElapsedTime 0
  | None => w
  end.

(** [ondataavailable], lines 60-62. *)
Definition ondataavailable (event_data : Blob) (w : World) : World :=
  w |> set_audioChunksRef (audioChunksRef (refs w) ++ [event_data]).

(** [onstop], lines 64-69. *)
Definition onstop (w : World) : World :=
  let blob := new_Blob (audioChunksRef (refs w)) "audio/webm" in
  w |> set_artifacts (artifacts (browser w) ++ [blob])
    |> setAudioBlob (Some blob)
    |> set_audioChunksRef []
    |> cleanup.

(** Lines 144-148, and [isBusy] as [App] passes it (line 75 of [App]). *)
Definition canRecord (w : World) : bool :=
  match recordingState (pane w) with Idle | Paused => true | _ => false end.
Definition canPause (w : World) : bool :=
  match recordingState (pane w) with Recording => true | _ => false end.
Definition canStop (w : World) : bool :=
  match recordingState (pane w) with Recording | Paused => true | _ => false end.
Definition canCancel (w : World) : bool :=
  match recordingState (pane w) with Idle | Stopped => false | _ => true end.
Definition canSend (w : World) : bool :=
  match recordingState (pane w) with Stopped => true | _ => false end.
Definition isBusy (w : World) : bool := transcription (isLoading (app w)).

(* ===================================================================== *)
(** ** Events *)
(* ===================================================================== *)

(** The five events of a recording session, each with its handler. *)
Inductive SessionEvent : Type := record | pause | stop | cancel | send.

Definition handler (e : SessionEvent) : World -> World :=
  match e with
  | record => handleRecord
  | pause => handlePause
  | stop => handleStop
  | cancel => handleCancel
  | send => handleSend
  end.

Inductive Event : Type :=
(* the user, through the rendered controls *)
| ClickRecordPause                   (* RecordingPane, lines 172-180 *)
| ClickStop                          (* lines 181-188 *)
| ClickCancel                        (* lines 191-198 *)
| ClickSend                          (* lines 199-206 *)
| SubmitReformat (options : ReformatOptions)     (* ResultsPane, lines 92, 131 *)
| ClickClear                         (* App, lines 66-71 *)
(* the environment *)
| Elapse (ms : Z)                     (* [Date.now()] reads [ms] more; less, when
                                        the wall clock was set back *)
| IntervalFires (id : nat)
| AnimationFrame (id : nat)
| AudioInput (bins : list N)
| UserMediaSettled (task : nat) (granted : bool)   (* when granted, [start()] succeeds *)
| RecorderStops (event_data : Blob)
| BlobToBase64Settled (task : nat) (base64Audio : option string)
| GenerateContentSettled (task : nat) (r : Settled)
| StartRefused (task : nat) (e : Exn).   (* [getUserMedia] resolves and the setup
                                            succeeds, but [start()] throws [e] *)

(** A click on a disabled button, or on a control that is not rendered,
    reaches no handler. *)
Definition click (disabled : bool) (handler : World -> World) (w : World) : World :=
  if disabled then w else handler w.

Definition step (e : Event) (w : World) : World :=
  match e with
  | ClickRecordPause =>
      click (isBusy w || (negb (canRecord w) && negb (canPause w)))
            (if canRecord w then handleRecord else handlePause) w
  | ClickStop => click (isBusy w || negb (canStop w)) handleStop w
  | ClickCancel => click (isBusy w || negb (canCancel w)) handleCancel w
  | ClickSend => click (isBusy w || negb (canSend w)) handleSend w
  | SubmitReformat options =>
      click (negb (truthy (transcriptionResult (app w))) || reformatting (isLoading (app w)))
            (handleReformat options) w
  | ClickClear =>
      click (negb (truthy (transcriptionResult (app w)) || truthy (reformattedResult (app w))))
            handleClear w
  | Elapse ms => w |> set_now (now (browser w) + ms)
  | IntervalFires id =>
      match assoc id (intervals (browser w)) with
      | Some startTime => interval_callback startTime w
      | None => w
      end
  | AnimationFrame id =>
      (* a requested frame comes: its callback runs once *)
      if existsb (Nat.eqb id) (frames (browser w))
      then w |> set_frames (remove_handle id (frames (browser w))) |> monitorAudioLevel
      else w
  | AudioInput bins => w |> set_frequencyData bins
  | UserMediaSettled i granted =>
      match tasks (browser w) !! i with
      | Some (AwaitUserMedia elapsedTime) =>
          handleRecord_settled i elapsedTime granted None w
      | _ => w
      end
  | RecorderStops event_data =>
      (* a recorder ends, by [stop()] or because its tracks ended: it
         fires [dataavailable], then [stop] *)
      match liveRecorders (browser w) with
      | O => w
      | S n => w |> set_liveRecorders n |> ondataavailable event_data |> onstop
      end
  | BlobToBase64Settled i base64Audio =>
      match tasks (browser w) !! i with
      | Some (AwaitBlobToBase64 audioBlob) => handleSendAudio_base64 i audioBlob base64Audio w
      | _ => w
      end
  | GenerateContentSettled i r =>
      match tasks (browser w) !! i with
      | Some (AwaitTranscribe _) => handleSendAudio_settled i r w
      | Some (AwaitReformat isLoading) => handleReformat_settled i isLoading r w
      | _ => w
      end
  | StartRefused i e =>
      match tasks (browser w) !! i with
      | Some (AwaitUserMedia elapsedTime) =>
          handleRecord_settled i elapsedTime true (Some e) w
      | _ => w
      end
  end.

Fixpoint run (es : list Event) (w : World) : World :=
  match es with
  | [] => w
  | e :: es' => run es' (step e w)
  end.

(** The page as first rendered, at time [t0], by a loaded service module. *)
Definition init (ai : GoogleGenAI) (t0 : Z) : World :=
  {| ai := ai;
     app := {| isLoading := {| transcription := false; reformatting := false |};
               error := None; transcriptionResult := JNull; reformattedResult := JNull |};
     pane := {| recordingState := Idle; elapsedTime := 0; audioLevel := Zero;
                audioBlob := None |};
     refs := {| mediaRecorderRef := None; audioChunksRef := []; timerIntervalRef := None;
                analyserRef := false; animationFrameRef := None |};
     browser := {| now := t0; intervals := []; frames := []; nextHandle := 1;
                   liveRecorders := 0; frequencyData := []; tasks := [];
                   requests := []; artifacts := [] |} |}.

(** Loading the page: [App] imports the service module first. *)
Definition boot (API_KEY : option string) (t0 : Z) : Exn + World :=
  match load API_KEY with
  | inl e => inl e
  | inr ai => inr (init ai t0)
  end.

(** The requests in flight: calls of [generateContent] not yet settled. *)
Definition is_transcribing (t : Task) : bool :=
  match t with AwaitTranscribe _ => true | _ => false end.
Definition is_reformatting (t : Task) : bool :=
  match t with AwaitReformat _ => true | _ => false end.
Definition transcriptions_in_flight (w : World) : nat :=
  length (List.filter is_transcribing (tasks (browser w))).
Definition reformats_in_flight (w : World) : nat :=
  length (List.filter is_reformatting (tasks (browser w))).

(** *** The table of the specification, section 4.2 *)

(** The listed transitions. *)
Definition table (from : RecordingState) (e : SessionEvent) (to : RecordingState) : bool :=
  match from, e, to with
  | Idle, record, Recording
  | Paused, record, Recording
  | Recording, pause, Paused
  | Recording, stop, Stopped
  | Paused, stop, Stopped
  | Recording, cancel, Idle
  | Paused, cancel, Idle
  | Stopped, send, Idle => true
  | _, _, _ => false
  end.

(** An event moved the session from [from] to [to]: a listed transition, or
    no change. *)
Definition follows_table (from : RecordingState) (e : SessionEvent) (to : RecordingState)
  : Prop :=
  to = from \/ table from e to = true.

(* ===================================================================== *)
(** ** Properties the theorems speak of *)
(* ===================================================================== *)

(** Every remote call so far went through the client [k]. *)
Definition issued_by (k : GoogleGenAI) (w : World) : Prop :=
  Forall (fun c => client c = k) (requests (browser w)).

(** *** Sample values *)

Definition example_ai : GoogleGenAI := {| apiKey := "key" |}.

(** What a recorder handed over, under its own media type. *)
Definition example_chunk : Blob :=
  {| data := [0x1A; 0x45; 0xDF; 0xA3]%N; type := "audio/ogg; codecs=opus" |}.
Definition example_artifact : Blob := new_Blob [example_chunk] "audio/webm".
Definition another_artifact : Blob := new_Blob [example_chunk; example_chunk] "audio/webm".

Definition example_options : ReformatOptions := {| format := Email; style := Formal |}.
Definition other_options : ReformatOptions := {| format := Memo; style := Informal |}.

(** The text of a JSON object whose members are all strings, written as
    given (an escape in a value is for the parser to decode). *)
Definition quote : string := String (ascii_of_N 0x22) EmptyString.
Definition json_member (m : string * string) : string :=
  (quote ++ fst m ++ quote ++ ":" ++ quote ++ snd m ++ quote)%string.
Definition json_object (members : list (string * string)) : string :=
  ("{" ++ String.concat "," (map json_member members) ++ "}")%string.

Definition good_response : Settled :=
  Response (Some (json_object [("title", "T"); ("content", "A\n\nB")]%string)).
Definition email_response : Settled :=
  Response (Some (json_object [("title", "Hello"); ("content", "Dear all")]%string)).
Definition memo_response : Settled :=
  Response (Some (json_object [("title", "Memo"); ("content", "To all")]%string)).
Definition response_without_content : Settled :=
  Response (Some (json_object [("title", "T")]%string)).

(** The page just loaded. *)
Definition page0 : World := init example_ai 0.

(** A recording was sent and its remote call is in flight (task 0). *)
Definition sending : World :=
  page0 |> handleSendAudio example_artifact
        |> step (BlobToBase64Settled 0 (Some "GkXfow=="%string)).

(** The transcription arrived. *)
Definition transcribed : World :=
  sending |> step (GenerateContentSettled 0 good_response).

(** A reformat of it is in flight (task 1). *)
Definition reformatting_now : World :=
  transcribed |> handleReformat example_options.

(** Bodies that are no JSON text. *)
Definition blank_body : string := "  ".
Definition broken_body : string := "{title: T".

(** A recording was made and stopped; its artifact waits to be sent. *)
Definition recorded : World :=
  run [ClickRecordPause; UserMediaSettled 0 true; ClickStop; RecorderStops example_chunk] page0.

(** *** The media type of what is recorded and sent *)

Definition webm (b : Blob) : Prop := type b = "audio/webm"%string.

Definition carries_webm (t : Task) : Prop :=
  match t with
  | AwaitBlobToBase64 b | AwaitTranscribe b => webm b
  | _ => True
  end.

(** A request is a transcription request that carries [audio/webm], or a
    reformat request. *)
Definition sent_as_webm (c : GenerateContent) : Prop :=
  match contents c with
  | Parts _ mimeType =>
      model c = "gemini-2.5-flash"%string /\ mimeType = "audio/webm"%string
  | Prompt _ _ _ => model c = "gemini-2.5-pro"%string
  end.

(** Every blob built on stop, the blob ready to send, the blob of every
    send under way, and the media type of every transcription request. *)
Definition media_type_invariant (w : World) : Prop :=
  Forall webm (artifacts (browser w))
  /\ (forall b, audioBlob (pane w) = Some b -> webm b)
  /\ Forall carries_webm (tasks (browser w))
  /\ Forall sent_as_webm (requests (browser w)).

(** *** One session: record, three ticks, pause, record, two ticks, stop *)

(** The delays are in milliseconds; [k] is any timer handle tried while the
    session is paused. *)
Definition session (event_data : Blob) (k : nat) (d0 d1 d2 d3 p1 p2 e1 e2 q : Z)
  : list Event :=
  [ClickRecordPause; Elapse d0; UserMediaSettled 0 true;
   Elapse d1; IntervalFires 1;
   Elapse d2; IntervalFires 1;
   Elapse d3; IntervalFires 1;
   Elapse p1; ClickRecordPause; Elapse p2; IntervalFires k;
   ClickRecordPause;
   Elapse e1; IntervalFires 3;
   Elapse e2; IntervalFires 3;
   Elapse q; ClickStop; RecorderStops event_data].

(** [elapsedTime] after each event of a run. *)
Fixpoint elapsed_along (es : list Event) (w : World) : list Z :=
  match es with
  | [] => []
  | e :: es' => elapsedTime (pane (step e w)) :: elapsed_along es' (step e w)
  end.

(** *** Two runs of the page *)

(** Record is clicked twice before the microphone answers; both requests
    are granted; then Pause is clicked. *)
Definition double_start : list Event :=
  [ClickRecordPause; ClickRecordPause; UserMediaSettled 0 true; UserMediaSettled 1 true;
   ClickRecordPause].

(** A recording is sent and transcribed; a reformat is asked for (task 2);
    while it is pending a second recording is made and sent, and its remote
    call is under way (task 4). *)
Definition send_during_reformat : list Event :=
  [ClickRecordPause; UserMediaSettled 0 true; ClickStop; RecorderStops example_chunk;
   ClickSend; BlobToBase64Settled 1 (Some "GkXfow=="%string);
   GenerateContentSettled 1 good_response;
   SubmitReformat example_options;
   ClickRecordPause; UserMediaSettled 3 true; ClickStop; RecorderStops example_chunk;
   ClickSend; BlobToBase64Settled 4 (Some "GkXfow=="%string)].

(** The answer of the reformat arrives. *)
Definition reformat_answered : list Event :=
  send_during_reformat ++ [GenerateContentSettled 2 email_response].

(** A third recording is made and sent (task 6). *)
Definition overlapping_sends : list Event :=
  reformat_answered
  ++ [ClickRecordPause; UserMediaSettled 5 true; ClickStop; RecorderStops example_chunk;
      ClickSend; BlobToBase64Settled 6 (Some "GkXfow=="%string)].

(** Record is clicked twice before the microphone answers; the first request
    is granted and the recording is stopped.  The second request is still
    pending (task 1). *)
Definition stopped_with_a_request_pending : list Event :=
  [ClickRecordPause; ClickRecordPause; UserMediaSettled 0 true; ClickStop].

(* ===================================================================== *)
(** ** What the two panes show *)
(* ===================================================================== *)

From Stdlib Require DecimalString DecimalZ DecimalPos DecimalFacts.
Import DecimalString.

(** *** [RecordingPane]: [formatTime], lines 138-142 *)

(** [n.toString()] of an integer [n] (below [10^21], where JavaScript
    still writes all the digits). *)
Definition Number_toString (n : Z) : string := NilZero.string_of_int (Z.to_int n).

(** The first [k] characters of [padString] repeated. *)
Fixpoint filler (k : nat) (padString rest : string) : string :=
  match k with
  | O => EmptyString
  | S k' =>
      match rest with
      | String c rest' => String c (filler k' padString rest')
      | EmptyString =>
          match padString with
          | String c rest' => String c (filler k' padString rest')
          | EmptyString => EmptyString
          end
      end
  end.

(** [s.padStart(targetLength, padString)] *)
Definition padStart (targetLength : nat) (padString s : string) : string :=
  (filler (targetLength - String.length s) padString padString ++ s)%string.

(** [Math.floor(seconds / 60)], and [seconds % 60] with the sign of
    [seconds]. *)
Definition formatTime (seconds : Z) : string :=
  let mins := padStart 2 "0" (Number_toString (seconds / 60)) in
  let secs := padStart 2 "0" (Number_toString (Z.rem seconds 60)) in
  (mins ++ ":" ++ secs)%string.

(** The decimal digit [d], for [0 <= d < 10]. *)
Definition digit (d : Z) : ascii := ascii_of_N (0x30 + Z.to_N d).

(** *** [ResultCard]: the paragraphs of line 52 *)

Definition LF : ascii := ascii_of_N 0x0A.

(** [s.split('\n\n')]: cut at every blank line, leftmost first. *)
Fixpoint split_blank_lines (s : string) : list string :=
  match s with
  | EmptyString => [EmptyString]
  | String a rest =>
      match rest with
      | String b rest' =>
          if Ascii.eqb a LF && Ascii.eqb b LF
          then EmptyString :: split_blank_lines rest'
          else
            match split_blank_lines rest with
            | p :: ps => String a p :: ps
            | [] => [String a EmptyString]
            end
      | EmptyString => [String a EmptyString]
      end
  end.

(** [content.split('\n\n')] as [ResultCard] evaluates it: only a string has
    the method. *)
Definition paragraphs (content : JsValue) : Exn + list string :=
  match content with
  | JString s => inr (split_blank_lines s)
  | _ => inl TypeError
  end.

(** The separator put back between the pieces. *)
Definition blank_line : string := String LF (String LF EmptyString).

(** Whether [s] holds two line feeds in a row. *)
Fixpoint has_blank_line (s : string) : bool :=
  match s with
  | String a (String b _ as rest) => (Ascii.eqb a LF && Ascii.eqb b LF) || has_blank_line rest
  | _ => false
  end.

(** Reading a displayed time back: the digits before and after the first
    colon, as numbers. *)
Definition COLON : ascii := ascii_of_N 0x3A.

Fixpoint cut_colon (s : string) : string * string :=
  match s with
  | EmptyString => (EmptyString, EmptyString)
  | String a rest =>
      if Ascii.eqb a COLON then (EmptyString, rest)
      else let '(p, q) := cut_colon rest in (String a p, q)
  end.

Definition read_digits (s : string) : option Z :=
  option_map (fun d => Z.of_N (N.of_uint d)) (NilEmpty.uint_of_string s).

Definition read_time (s : string) : option Z :=
  let '(p, q) := cut_colon s in
  match read_digits p, read_digits q with
  | Some mins, Some secs => Some (mins * 60 + secs)
  | _, _ => None
  end.

Fixpoint no_colon (s : string) : bool :=
  match s with
  | EmptyString => true
  | String a rest => negb (Ascii.eqb a COLON) && no_colon rest
  end.

(** [<ResultCard content={result.content} ... />] (lines 150 and 156 of
    [ResultsPane]) for a stored result that is shown: the paragraphs its
    body computes. *)
Definition card_paragraphs (result : JsValue) : Exn + list string :=
  paragraphs (content result).

(** A text that needs no escape inside a JSON string: no quote, no
    backslash, no control character. *)
Definition plain_byte (b : N) : bool :=
  ((0x20 <=? b) && negb (b =? 0x22) && negb (b =? 0x5C))%N.
Definition plain (s : string) : bool := forallb plain_byte (bytes s).

(** White space of one byte each: tabs, line ends, spaces. *)
Definition blank (s : string) : bool := forallb ws1 (bytes s).

(** A blank line as a JSON text writes it: two [\n] escapes. *)
Definition escaped_blank_line : string := "\n\n".

(** The body of a response whose content is the given paragraphs. *)
Definition body_of (title : string) (pars : list string) : string :=
  json_object [("title"%string, title);
               ("content"%string, String.concat escaped_blank_line pars)].

(* ===================================================================== *)
(** ** What [ResultsPane] returns *)
(* ===================================================================== *)

(** [v.title] for a truthy [v], as [content] above. *)
Definition title (v : JsValue) : JsValue :=
  match v with
  | JObject members => own_property "title" members
  | _ => JUndefined
  end.

(** The elements [ResultsPane] can return, lines 145-161, each with the
    props it is given. *)
Inductive Element : Type :=
| TranscribingSpinner
| ErrorBox (error : string)
| ResultCard (title content : JsValue) (label : string)
| ReformatControls (isBusy : bool)
| ReformattingSpinner
| Placeholder.

(** A child of the returned [div]: an element, or the falsy value that its
    guard left in its place. *)
Inductive Child : Type :=
| Rendered (e : Element)
| Falsy (v : JsValue).

(** [{v && e}] *)
Definition guarded (v : JsValue) (e : Element) : Child :=
  if truthy v then Rendered e else Falsy v.

(** [ResultsPane], lines 142-164; its props are the state of [App]
    (lines 76-82 of [App]), [onReformat] apart. *)
Definition ResultsPane (props : AppState) : list Child :=
  let transcription_ := transcriptionResult props in
  let reformattedText := reformattedResult props in
  [ guarded (JBool (transcription (isLoading props))) TranscribingSpinner;
    match error props with
    | Some e => guarded (JString e) (ErrorBox e)
    | None => Falsy JNull
    end;
    guarded transcription_
      (ResultCard (title transcription_) (content transcription_) "Transcription");
    guarded transcription_ (ReformatControls (reformatting (isLoading props)));
    guarded (JBool (reformatting (isLoading props))) ReformattingSpinner;
    guarded reformattedText
      (ResultCard (title reformattedText) (content reformattedText) "Reformatted Text");
    guarded (JBool (negb (transcription (isLoading props)) && negb (truthy transcription_)))
      Placeholder ].

(** *** The display while a call is under way *)

(** The state [handleSendAudio] sets before its first [await] (lines 16-19). *)
Definition busy : AppState :=
  {| isLoading := {| transcription := true; reformatting := false |};
     error := None; transcriptionResult := JNull; reformattedResult := JNull |}.

(** The [isLoading] in the closure of a suspended [handleReformat]. *)
Definition captured_idle (t : Task) : Prop :=
  match t with
  | AwaitReformat l => transcription l = false
  | _ => True
  end.

Definition display_invariant (w : World) : Prop :=
  (transcription (isLoading (app w)) = true -> app w = busy)
  /\ (reformatting (isLoading (app w)) = true ->
      transcription (isLoading (app w)) = false
      /\ error (app w) = None
      /\ truthy (transcriptionResult (app w)) = true
      /\ reformattedResult (app w) = JNull)
  /\ Forall captured_idle (tasks (browser w)).

(** The events that come from the user. *)
Definition by_user (e : Event) : bool :=
  match e with
  | ClickRecordPause | ClickStop | ClickCancel | ClickSend | SubmitReformat _ | ClickClear =>
      true
  | _ => false
  end.

(** The suspended calls of [handleSendAudio] and of [handleReformat]. *)
Definition is_sending (t : Task) : bool :=
  match t with AwaitBlobToBase64 _ | AwaitTranscribe _ => true | _ => false end.
Definition sends_under_way (w : World) : nat :=
  length (List.filter is_sending (tasks (browser w))).

(** *** Sample runs *)

(** A recording is made, stopped and sent: its audio is being encoded
    (task 1; task 0 was the request for the microphone). *)
Definition record_and_send : list Event :=
  [ClickRecordPause; UserMediaSettled 0 true; ClickStop; RecorderStops example_chunk;
   ClickSend].

(** Its transcription arrives and a reformat of it is asked for (task 2). *)
Definition record_to_reformat : list Event :=
  record_and_send
  ++ [BlobToBase64Settled 1 (Some "GkXfow=="%string); GenerateContentSettled 1 good_response;
      SubmitReformat example_options].

(** A recording is under way, its timer has handle 1; and the same session
    paused after three seconds. *)
Definition start_recording : list Event := [ClickRecordPause; UserMediaSettled 0 true].
Definition pause_after_three_seconds : list Event :=
  start_recording ++ [Elapse 3000; IntervalFires 1; ClickRecordPause].
Definition recording_now : World := run start_recording page0.
Definition paused_now : World := run pause_after_three_seconds page0.

(** The events that can make a remote call: an encoded recording, and a
    submit of the reformat form. *)
Definition may_call (e : Event) : bool :=
  match e with
  | BlobToBase64Settled _ (Some _) | SubmitReformat _ => true
  | _ => false
  end.

(** An event that does not set the wall clock back. *)
Definition steady (e : Event) : bool :=
  match e with
  | Elapse ms => 0 <=? ms
  | _ => true
  end.

(** A recording is under way and the wall clock is set back by a second and
    a half; then the timer ticks. *)
Definition clock_set_back : list Event :=
  start_recording ++ [Elapse (-1500); IntervalFires 1].

(** The time shown is not negative, a timer started no later than now, and
    the time a pending start will resume from is not negative. *)
Definition resumes_from (t : Task) : Prop :=
  match t with
  | AwaitUserMedia elapsedTime => 0 <= elapsedTime
  | _ => True
  end.

Definition time_invariant (w : World) : Prop :=
  0 <= elapsedTime (pane w)
  /\ Forall (fun timer => snd timer <= now (browser w)) (intervals (browser w))
  /\ Forall resumes_from (tasks (browser w)).

(** Spinners and the calls behind them. *)
Definition pending_invariant (w : World) : Prop :=
  (transcription (isLoading (app w)) = true -> (0 < sends_under_way w)%nat)
  /\ (reformatting (isLoading (app w)) = true -> (0 < reformats_in_flight w)%nat).


(** *** What the state of the two components always satisfies *)

(** The two messages of the [catch] blocks of [App] (lines 27 and 45). *)
Definition transcription_failed : string := "Failed to transcribe audio. Please try again.".
Definition reformat_failed : string := "Failed to reformat text. Please try again.".

Definition error_invariant (w : World) : Prop :=
  error (app w) = None
  \/ error (app w) = Some transcription_failed
  \/ error (app w) = Some reformat_failed.

(** The blob a suspended send holds. *)
Definition blob_of (t : Task) : option Blob :=
  match t with
  | AwaitBlobToBase64 b | AwaitTranscribe b => Some b
  | _ => None
  end.

Definition blob_invariant (w : World) : Prop :=
  (forall b, audioBlob (pane w) = Some b -> In b (artifacts (browser w)))
  /\ (forall i t b, tasks (browser w) !! i = Some t -> blob_of t = Some b ->
                    In b (artifacts (browser w))).


(** Record is clicked twice before the microphone answers; the first
    recorder starts, the second is refused its start and replaces the first
    in the ref. *)
Definition second_start_refused : list Event :=
  [ClickRecordPause; ClickRecordPause; UserMediaSettled 0 true;
   StartRefused 1 NotSupportedError].


(* ===================================================================== *)
(** ** Proofs *)
(* ===================================================================== *)

Ltac unfold_handlers :=
  unfold click, handler, handleSend, handleSendAudio, handleSendAudio_base64,
    handleSendAudio_settled, handleSendAudio_catch, handleReformat, handleReformat_settled,
    handleClear, handleRecord, handleRecord_settled, handlePause, handleStop, handleCancel,
    ondataavailable, onstop, cleanup, monitorAudioLevel, setupMediaRecorder_granted,
    interval_callback, startTimer, optional_call, if_set, setInterval, clearInterval,
    requestAnimationFrame, cancelAnimationFrame, suspend, resume, generateContent in *.

(** Runs every branch of the handlers behind an event. *)
Ltac by_cases_of e :=
  destruct e; cbn; unfold_handlers; repeat (case_match; simplify_eq/=).

Section Parsing.

(** The response of the specification's round-trip test parses to the
    record it names; the escapes of its text are decoded. *)
Example parse_round_trip :
  JSON_parse (json_object [("title", "T"); ("content", "A\n\nB")]%string)
  = Some (JObject [("title"%string, JString "T");
                   ("content"%string, JString (text [0x41; 0x0A; 0x0A; 0x42]%N))]).
Proof. reflexivity. Qed.

Example parse_nested :
  JSON_parse " [1, -2.5e-3, true, null, [], {}] "
  = Some (JArray [JNumber "1"; JNumber "-2.5e-3"; JBool true; JNull; JArray []; JObject []]).
Proof. reflexivity. Qed.

Example parse_rejects :
  map JSON_parse [EmptyString; "01"; "[1,]"; "tru"; "-"; "1.e3"; "[1 2]"; "nulll"; "[]]"; "{"]%string
  = [None; None; None; None; None; None; None; None; None; None].
Proof. reflexivity. Qed.

Example trim_strips_both_ends :
  trim (text [0xEF; 0xBB; 0xBF; 0x20; 0x41; 0x20; 0x42; 0xC2; 0xA0; 0x0A]%N) = "A B"%string.
Proof. reflexivity. Qed.

Example falsy_values :
  map truthy [JNull; JUndefined; JBool false; JNumber "0"; JNumber "-0.0e7"; JNumber "1e-400";
              JString EmptyString; JNumber "5e-324"; JString "0"; JArray []; JObject []]
  = [false; false; false; false; false; false; false; true; true; true; true].
Proof. reflexivity. Qed.

End Parsing.

Section Client.

Lemma step_ai (e : Event) (w : World) : ai (step e w) = ai w.
Proof. by_cases_of e; reflexivity. Qed.

Lemma run_ai (es : list Event) (w : World) : ai (run es w) = ai w.
Proof.
  revert w. induction es as [|e es IH]; intros w; cbn; [reflexivity|].
  rewrite IH. apply step_ai.
Qed.

Lemma step_issued (e : Event) (w : World) :
  issued_by (ai w) w -> issued_by (ai w) (step e w).
Proof.
  unfold issued_by. intros H.
  by_cases_of e; try assumption;
    apply Forall_app; (split; [assumption|]); repeat constructor.
Qed.

Lemma run_issued (es : list Event) (w : World) :
  issued_by (ai w) w -> issued_by (ai w) (run es w).
Proof.
  revert w. induction es as [|e es IH]; intros w H; cbn; [assumption|].
  rewrite <- (step_ai e w). apply IH. rewrite step_ai. now apply step_issued.
Qed.

End Client.

(** C9.  Loading the service module without [API_KEY] throws, so no page
    exists; a page that exists was loaded with a non-empty key, and every
    remote call it ever makes goes through the client built from that key. *)
Theorem api_key_required (API_KEY : option string) (t0 : Z) :
  load None = inl (Error "API_KEY environment variable not set")
  /\ boot None t0 = inl (Error "API_KEY environment variable not set")
  /\ match boot API_KEY t0 with
     | inl e =>
         e = Error "API_KEY environment variable not set"
         /\ (API_KEY = None \/ API_KEY = Some EmptyString)
     | inr w =>
         exists k, API_KEY = Some k /\ k <> EmptyString
           /\ forall es, issued_by {| apiKey := k |} (run es w)
     end.
Proof.
  split; [reflexivity|]. split; [reflexivity|].
  unfold boot, load. destruct API_KEY as [k|]; [|auto].
  destruct (String.eqb_spec k EmptyString); [subst; auto|].
  exists k. repeat split; [assumption|].
  intros es. apply (run_issued es (init {| apiKey := k |} t0)). constructor.
Qed.

(** C7.  With no transcription result, [onReformat] changes nothing: the
    world after it, remote calls and suspended handlers included, is the
    world before it; the same holds for the submit button of the form. *)
Theorem reformat_without_transcription (w : World) (options : ReformatOptions) :
  transcriptionResult (app w) = JNull ->
  handleReformat options w = w /\ step (SubmitReformat options) w = w.
Proof.
  intros H. unfold step, click, handleReformat. rewrite H. cbn. split; reflexivity.
Qed.

Lemma reformat_without_transcription_witness :
  transcriptionResult (app page0) = JNull
  /\ handleReformat example_options page0 = page0
  /\ step (SubmitReformat example_options) page0 = page0.
Proof.
  split; [reflexivity|].
  apply (reformat_without_transcription page0 example_options). reflexivity.
Defined.

Section Tasks.

Lemma lookup_newest (l : list Task) (t : Task) (n : nat) :
  length l = n -> (l ++ [t]) !! n = Some t.
Proof. intros <-. apply list_lookup_middle. reflexivity. Qed.

Lemma insert_newest (l : list Task) (t u : Task) (n : nat) :
  length l = n -> <[n := u]> (l ++ [t]) = l ++ [u].
Proof.
  intros <-. rewrite insert_app_r_alt by lia. now rewrite Nat.sub_diag.
Qed.

Lemma lookup_older (l : list Task) (t u : Task) (j : nat) :
  l !! j = Some t -> (l ++ [u]) !! j = Some t.
Proof. intros H. rewrite lookup_app_l; [assumption|]. eapply lookup_lt_Some, H. Qed.

End Tasks.

(** C8.  An [onReformat] call never touches [transcriptionResult], and does
    nothing at all only when there is no transcription result.  When there is
    one it clears the error and the stored reformat result, leaves the
    transcription result alone, and makes exactly one request: to the
    reformat model, through the client of the page, with the [content] of the
    current transcription result, the format and the style in its prompt.
    After two such calls, each answered successfully, the stored reformat
    result is the second answer and the transcription result is still the
    original one. *)
Theorem reformat_frame (w : World) (o1 o2 : ReformatOptions) (r1 r2 : Settled)
    (v1 v2 : JsValue) :
  transcriptionResult (app (handleReformat o1 w)) = transcriptionResult (app w)
  /\ (handleReformat o1 w = w \/ truthy (transcriptionResult (app w)) = true)
  /\ (truthy (transcriptionResult (app w)) = true ->
      reformatText_result r1 = inr v1 ->
      reformatText_result r2 = inr v2 ->
      let n := length (tasks (browser w)) in
      let request o :=
        {| client := ai w; model := "gemini-2.5-pro";
           contents := Prompt (content (transcriptionResult (app w))) (format o) (style o) |} in
      let w1 := w |> handleReformat o1 in
      let w2 := w1 |> step (GenerateContentSettled n r1) in
      let w3 := w2 |> handleReformat o2 in
      let w4 := w3 |> step (GenerateContentSettled (S n) r2) in
      app w1 = {| isLoading := {| transcription := transcription (isLoading (app w));
                                  reformatting := true |};
                  error := None;
                  transcriptionResult := transcriptionResult (app w);
                  reformattedResult := JNull |}
      /\ requests (browser w1) = requests (browser w) ++ [request o1]
      /\ reformattedResult (app w2) = v1
      /\ transcriptionResult (app w2) = transcriptionResult (app w)
      /\ reformattedResult (app w3) = JNull
      /\ transcriptionResult (app w3) = transcriptionResult (app w)
      /\ requests (browser w3) = requests (browser w) ++ [request o1; request o2]
      /\ reformattedResult (app w4) = v2
      /\ transcriptionResult (app w4) = transcriptionResult (app w)).
Proof.
  split; [|split].
  { unfold handleReformat. destruct (truthy (transcriptionResult (app w))); reflexivity. }
  { unfold handleReformat. destruct (truthy (transcriptionResult (app w))); auto. }
  intros Ht H1 H2 n request w1 w2 w3 w4.
  assert (E1 : w1 = w |> setIsLoading {| transcription := transcription (isLoading (app w));
                                       reformatting := true |}
                     |> setError None |> setReformattedResult JNull
                     |> generateContent (request o1)
                     |> suspend (AwaitReformat (isLoading (app w)))).
  { subst w1. unfold handleReformat. rewrite Ht. reflexivity. }
  assert (E2 : w2 = w1 |> handleReformat_settled n (isLoading (app w)) r1).
  { subst w2 n. unfold step. rewrite E1. cbn. rewrite lookup_newest by reflexivity.
    reflexivity. }
  unfold handleReformat_settled in E2. rewrite H1 in E2.
  assert (E3 : w3 = w2 |> setIsLoading {| transcription := transcription (isLoading (app w));
                                        reformatting := true |}
                     |> setError None |> setReformattedResult JNull
                     |> generateContent (request o2)
                     |> suspend (AwaitReformat (isLoading (app w2)))).
  { subst w3. unfold handleReformat. rewrite E2, E1. cbn. rewrite Ht. reflexivity. }
  assert (E4 : w4 = w3 |> handleReformat_settled (S n) (isLoading (app w2)) r2).
  { subst w4 n. unfold step. rewrite E3, E2, E1. cbn.
    rewrite lookup_newest; [reflexivity|].
    rewrite length_insert, length_app. cbn. lia. }
  unfold handleReformat_settled in E4. rewrite H2 in E4.
  rewrite E4, E3, E2, E1. cbn. rewrite <- app_assoc. repeat split; reflexivity.
Qed.

Lemma reformat_frame_witness :
  truthy (transcriptionResult (app transcribed)) = true
  /\ reformatText_result email_response
     = inr (JObject [("title"%string, JString "Hello"); ("content"%string, JString "Dear all")])
  /\ reformatText_result memo_response
     = inr (JObject [("title"%string, JString "Memo"); ("content"%string, JString "To all")])
  /\ reformattedResult
       (app (transcribed |> handleReformat example_options
                         |> step (GenerateContentSettled 1 email_response)
                         |> handleReformat other_options
                         |> step (GenerateContentSettled 2 memo_response)))
     = JObject [("title"%string, JString "Memo"); ("content"%string, JString "To all")].
Proof.
  split; [reflexivity|]. split; [reflexivity|]. split; [reflexivity|].
  destruct (reformat_frame transcribed example_options other_options
              email_response memo_response
              (JObject [("title"%string, JString "Hello"); ("content"%string, JString "Dear all")])
              (JObject [("title"%string, JString "Memo"); ("content"%string, JString "To all")]))
    as (_ & _ & H).
  destruct (H eq_refl eq_refl eq_refl) as (_ & _ & _ & _ & _ & _ & _ & H4 & _).
  exact H4.
Defined.

Section Settling.

Lemma step_base64 (w : World) (i : nat) (audioBlob : Blob) (r : option string) :
  tasks (browser w) !! i = Some (AwaitBlobToBase64 audioBlob) ->
  step (BlobToBase64Settled i r) w = handleSendAudio_base64 i audioBlob r w.
Proof. intros H. unfold step. now rewrite H. Qed.

Lemma step_transcribed (w : World) (i : nat) (audioBlob : Blob) (r : Settled) :
  tasks (browser w) !! i = Some (AwaitTranscribe audioBlob) ->
  step (GenerateContentSettled i r) w = handleSendAudio_settled i r w.
Proof. intros H. unfold step. now rewrite H. Qed.

Lemma step_reformatted (w : World) (i : nat) (isLoading : Loading) (r : Settled) :
  tasks (browser w) !! i = Some (AwaitReformat isLoading) ->
  step (GenerateContentSettled i r) w = handleReformat_settled i isLoading r w.
Proof. intros H. unfold step. now rewrite H. Qed.

(** A send whose audio has been encoded: the remote call is made. *)
Lemma send_encoded (w : World) (audioBlob : Blob) (base64Audio : string) :
  w |> handleSendAudio audioBlob
    |> step (BlobToBase64Settled (length (tasks (browser w))) (Some base64Audio))
  = w |> setIsLoading {| transcription := true; reformatting := false |}
      |> setError None
      |> setTranscriptionResult JNull
      |> setReformattedResult JNull
      |> generateContent (transcribeAudio_call (ai w) base64Audio (type audioBlob))
      |> set_tasks (tasks (browser w) ++ [AwaitTranscribe audioBlob]).
Proof.
  rewrite (step_base64 _ _ audioBlob).
  - unfold handleSendAudio_base64, handleSendAudio, suspend, resume, generateContent. cbn.
    rewrite insert_newest by reflexivity. reflexivity.
  - unfold handleSendAudio, suspend. cbn. now apply lookup_newest.
Qed.

Lemma in_flight_app (f : Task -> bool) (l : list Task) (t : Task) :
  length (List.filter f (l ++ [t])) = (length (List.filter f l) + (if f t then 1 else 0))%nat.
Proof. rewrite List.filter_app, length_app. cbn. now destruct (f t). Qed.

End Settling.

(** While a busy flag is set the control behind it is disabled: a click on
    Send, or a submit of the reformat form, reaches no handler. *)
Lemma busy_controls_are_disabled (w : World) (options : ReformatOptions) :
  (transcription (isLoading (app w)) = true -> step ClickSend w = w)
  /\ (reformatting (isLoading (app w)) = true -> step (SubmitReformat options) w = w).
Proof.
  split; intros H; unfold step, click, isBusy; rewrite H; [reflexivity|].
  now rewrite orb_true_r.
Qed.

(** C1.  The code breaks it.  The Send button is disabled while the
    transcribing flag is set, but the [finally] of [handleReformat] (line 47)
    writes back the [isLoading] its closure saw when the reformat was asked
    for.  A recording sent while that reformat is pending sets the
    transcribing flag; the answer of the reformat then clears it, with the
    transcription still in flight; the pane is enabled again, a further
    recording is sent, and two transcription requests are in flight. *)
Theorem stale_flag_lets_sends_overlap :
  isLoading (app (run send_during_reformat page0))
  = {| transcription := true; reformatting := false |}
  /\ tasks (browser (run send_during_reformat page0)) !! 2%nat
     = Some (AwaitReformat {| transcription := false; reformatting := false |})
  /\ transcriptions_in_flight (run send_during_reformat page0) = 1%nat
  /\ isLoading (app (run reformat_answered page0))
     = {| transcription := false; reformatting := false |}
  /\ transcriptions_in_flight (run reformat_answered page0) = 1%nat
  /\ transcriptions_in_flight (run overlapping_sends page0) = 2%nat
  /\ List.filter is_transcribing (tasks (browser (run overlapping_sends page0)))
     = [AwaitTranscribe example_artifact; AwaitTranscribe example_artifact]
  /\ map model (requests (browser (run overlapping_sends page0)))
     = ["gemini-2.5-flash"; "gemini-2.5-pro"; "gemini-2.5-flash"; "gemini-2.5-flash"]%string.
Proof. repeat split; reflexivity. Qed.


(** C2, as the code has it.  There is no stale-response guard.  [onClear]
    and a new [onSend] leave every pending request pending, and when the
    response of a pending request arrives it is stored, whatever happened
    since the request was made: a transcription into [transcriptionResult],
    a reformat into [reformattedResult]. *)
Theorem responses_are_stored_on_arrival (w : World) (i : nat) (audioBlob : Blob)
    (isLoading : Loading) (r : Settled) (v : JsValue) :
  tasks (browser (handleClear w)) = tasks (browser w)
  /\ (forall newBlob t, tasks (browser w) !! i = Some t ->
        tasks (browser (handleSendAudio newBlob w)) !! i = Some t)
  /\ (tasks (browser w) !! i = Some (AwaitTranscribe audioBlob) ->
      transcribeAudio_result r = inr v ->
      transcriptionResult (app (step (GenerateContentSettled i r) w)) = v)
  /\ (tasks (browser w) !! i = Some (AwaitReformat isLoading) ->
      reformatText_result r = inr v ->
      reformattedResult (app (step (GenerateContentSettled i r) w)) = v).
Proof.
  split; [reflexivity|]. split; [|split].
  - intros newBlob t H. unfold handleSendAudio, suspend. cbn. now apply lookup_older.
  - intros H Hr. rewrite (step_transcribed _ _ audioBlob) by assumption.
    unfold handleSendAudio_settled. rewrite Hr. reflexivity.
  - intros H Hr. rewrite (step_reformatted _ _ isLoading) by assumption.
    unfold handleReformat_settled. rewrite Hr. reflexivity.
Qed.

Lemma responses_are_stored_on_arrival_witness :
  (tasks (browser sending) !! 0%nat = Some (AwaitTranscribe example_artifact)
   /\ tasks (browser (handleSendAudio another_artifact sending)) !! 0%nat
      = Some (AwaitTranscribe example_artifact))
  /\ (tasks (browser (handleClear sending)) !! 0%nat = Some (AwaitTranscribe example_artifact)
   /\ transcribeAudio_result good_response
      = inr (JObject [("title"%string, JString "T");
                      ("content"%string, JString (text [0x41; 0x0A; 0x0A; 0x42]%N))])
   /\ transcriptionResult (app (step (GenerateContentSettled 0 good_response)
                                     (handleClear sending)))
      = JObject [("title"%string, JString "T");
                 ("content"%string, JString (text [0x41; 0x0A; 0x0A; 0x42]%N))])
  /\ (tasks (browser (handleClear reformatting_now)) !! 1%nat
      = Some (AwaitReformat {| transcription := false; reformatting := false |})
      /\ reformatText_result email_response
         = inr (JObject [("title"%string, JString "Hello");
                         ("content"%string, JString "Dear all")])
      /\ reformattedResult (app (step (GenerateContentSettled 1 email_response)
                                      (handleClear reformatting_now)))
         = JObject [("title"%string, JString "Hello"); ("content"%string, JString "Dear all")]).
Proof.
  split; [|split].
  - split; [reflexivity|].
    destruct (responses_are_stored_on_arrival sending 0 example_artifact
                {| transcription := false; reformatting := false |} good_response JNull)
      as (_ & H & _).
    exact (H another_artifact (AwaitTranscribe example_artifact) eq_refl).
  - split; [reflexivity|]. split; [reflexivity|].
    destruct (responses_are_stored_on_arrival (handleClear sending) 0 example_artifact
                {| transcription := false; reformatting := false |} good_response
                (JObject [("title"%string, JString "T");
                          ("content"%string, JString (text [0x41; 0x0A; 0x0A; 0x42]%N))]))
      as (_ & _ & H & _).
    exact (H eq_refl eq_refl).
  - split; [reflexivity|]. split; [reflexivity|].
    destruct (responses_are_stored_on_arrival (handleClear reformatting_now) 1
                example_artifact {| transcription := false; reformatting := false |}
                email_response
                (JObject [("title"%string, JString "Hello");
                          ("content"%string, JString "Dear all")]))
      as (_ & _ & _ & H).
    exact (H eq_refl eq_refl).
Defined.

(** C2 as stated fails.  The session is cleared while a transcription is in
    flight: both results are null; then the response arrives and is stored.
    The same when a new send has replaced the artifact the response belongs
    to, and for a reformat response after a clear. *)
Lemma stale_response_is_stored :
  transcriptionResult (app (sending |> handleClear)) = JNull
  /\ transcriptionResult
       (app (sending |> handleClear |> step (GenerateContentSettled 0 good_response)))
     = JObject [("title"%string, JString "T");
                ("content"%string, JString (text [0x41; 0x0A; 0x0A; 0x42]%N))]
  /\ tasks (browser (sending |> handleSendAudio another_artifact))
     = [AwaitTranscribe example_artifact; AwaitBlobToBase64 another_artifact]
  /\ transcriptionResult
       (app (sending |> handleSendAudio another_artifact
                     |> step (GenerateContentSettled 0 good_response)))
     = JObject [("title"%string, JString "T");
                ("content"%string, JString (text [0x41; 0x0A; 0x0A; 0x42]%N))]
  /\ reformattedResult (app (reformatting_now |> handleClear)) = JNull
  /\ reformattedResult
       (app (reformatting_now |> handleClear
                              |> step (GenerateContentSettled 1 email_response)))
     = JObject [("title"%string, JString "Hello"); ("content"%string, JString "Dear all")].
Proof. repeat split; reflexivity. Qed.

(** C3, as the code has it.  A failed remote call, a response without text,
    an empty or blank body and a body that is not well-formed JSON make
    [transcribeAudio] and [reformatText] fail; the handler then clears its
    busy flag, sets the error and leaves both stored results as they were.
    A well-formed JSON value is returned as it is: nothing checks it against
    the schema the request asked for. *)
Theorem malformed_responses_fail (w : World) (i : nat) (audioBlob : Blob)
    (captured : Loading) (r : Settled) (t : string) (e : Exn) (v : JsValue) :
  (transcribeAudio_result Rejected = inl ApiError
   /\ reformatText_result Rejected = inl ApiError
   /\ transcribeAudio_result (Response None) = inl TypeError
   /\ reformatText_result (Response None) = inl TypeError)
  /\ (trim t = EmptyString ->
      transcribeAudio_result (Response (Some t)) = inl SyntaxError
      /\ reformatText_result (Response (Some t)) = inl SyntaxError)
  /\ (JSON_parse (trim t) = None ->
      transcribeAudio_result (Response (Some t)) = inl SyntaxError
      /\ reformatText_result (Response (Some t)) = inl SyntaxError)
  /\ (tasks (browser w) !! i = Some (AwaitTranscribe audioBlob) ->
      transcribeAudio_result r = inl e ->
      let w' := step (GenerateContentSettled i r) w in
      transcription (isLoading (app w')) = false
      /\ error (app w') = Some "Failed to transcribe audio. Please try again."%string
      /\ transcriptionResult (app w') = transcriptionResult (app w)
      /\ reformattedResult (app w') = reformattedResult (app w))
  /\ (tasks (browser w) !! i = Some (AwaitReformat captured) ->
      reformatText_result r = inl e ->
      let w' := step (GenerateContentSettled i r) w in
      reformatting (isLoading (app w')) = false
      /\ error (app w') = Some "Failed to reformat text. Please try again."%string
      /\ transcriptionResult (app w') = transcriptionResult (app w)
      /\ reformattedResult (app w') = reformattedResult (app w))
  /\ (JSON_parse (trim t) = Some v ->
      transcribeAudio_result (Response (Some t)) = inr v
      /\ reformatText_result (Response (Some t)) = inr v
      /\ (tasks (browser w) !! i = Some (AwaitTranscribe audioBlob) ->
          let w' := step (GenerateContentSettled i (Response (Some t))) w in
          transcriptionResult (app w') = v /\ error (app w') = error (app w))
      /\ (tasks (browser w) !! i = Some (AwaitReformat captured) ->
          let w' := step (GenerateContentSettled i (Response (Some t))) w in
          reformattedResult (app w') = v /\ error (app w') = error (app w))).
Proof.
  split; [repeat split; reflexivity|].
  split; [|split; [|split; [|split]]].
  - intros H. unfold transcribeAudio_result, reformatText_result, parse_response.
    rewrite H. split; reflexivity.
  - intros H. unfold transcribeAudio_result, reformatText_result, parse_response.
    rewrite H. split; reflexivity.
  - intros H Hr w'. subst w'. rewrite (step_transcribed _ _ audioBlob) by assumption.
    unfold handleSendAudio_settled. rewrite Hr. repeat split; reflexivity.
  - intros H Hr w'. subst w'. rewrite (step_reformatted _ _ captured) by assumption.
    unfold handleReformat_settled. rewrite Hr. repeat split; reflexivity.
  - intros H.
    assert (Hr : parse_response (Response (Some t)) = inr v).
    { unfold parse_response. now rewrite H. }
    split; [exact Hr|]. split; [exact Hr|]. split.
    + intros Ht w'. subst w'. rewrite (step_transcribed _ _ audioBlob) by assumption.
      unfold handleSendAudio_settled, transcribeAudio_result. rewrite Hr. split; reflexivity.
    + intros Ht w'. subst w'. rewrite (step_reformatted _ _ captured) by assumption.
      unfold handleReformat_settled, reformatText_result. rewrite Hr. split; reflexivity.
Qed.

Lemma malformed_responses_fail_witness :
  (trim blank_body = EmptyString
   /\ transcribeAudio_result (Response (Some blank_body)) = inl SyntaxError)
  /\ (JSON_parse (trim broken_body) = None
      /\ reformatText_result (Response (Some broken_body)) = inl SyntaxError)
  /\ (tasks (browser sending) !! 0%nat = Some (AwaitTranscribe example_artifact)
      /\ transcribeAudio_result (Response (Some broken_body)) = inl SyntaxError
      /\ error (app (step (GenerateContentSettled 0 (Response (Some broken_body))) sending))
         = Some "Failed to transcribe audio. Please try again."%string)
  /\ (tasks (browser reformatting_now) !! 1%nat
      = Some (AwaitReformat {| transcription := false; reformatting := false |})
      /\ reformatText_result Rejected = inl ApiError
      /\ reformatting
           (isLoading (app (step (GenerateContentSettled 1 Rejected) reformatting_now)))
         = false)
  /\ (JSON_parse (trim (json_object [("title", "T")]%string))
      = Some (JObject [("title"%string, JString "T")])
      /\ transcribeAudio_result response_without_content
         = inr (JObject [("title"%string, JString "T")])
      /\ transcriptionResult
           (app (step (GenerateContentSettled 0 response_without_content) sending))
         = JObject [("title"%string, JString "T")]
      /\ reformattedResult
           (app (step (GenerateContentSettled 1 response_without_content) reformatting_now))
         = JObject [("title"%string, JString "T")]).
Proof.
  split; [|split; [|split; [|split]]].
  - split; [reflexivity|].
    destruct (malformed_responses_fail page0 0 example_artifact
                {| transcription := false; reformatting := false |}
                Rejected blank_body ApiError JNull) as (_ & H & _).
    exact (proj1 (H eq_refl)).
  - split; [reflexivity|].
    destruct (malformed_responses_fail page0 0 example_artifact
                {| transcription := false; reformatting := false |}
                Rejected broken_body ApiError JNull) as (_ & _ & H & _).
    exact (proj2 (H eq_refl)).
  - split; [reflexivity|]. split; [reflexivity|].
    destruct (malformed_responses_fail sending 0 example_artifact
                {| transcription := false; reformatting := false |}
                (Response (Some broken_body)) broken_body SyntaxError JNull)
      as (_ & _ & _ & H & _).
    exact (proj1 (proj2 (H eq_refl eq_refl))).
  - split; [reflexivity|]. split; [reflexivity|].
    destruct (malformed_responses_fail reformatting_now 1 example_artifact
                {| transcription := false; reformatting := false |}
                Rejected broken_body ApiError JNull)
      as (_ & _ & _ & _ & H & _).
    exact (proj1 (H eq_refl eq_refl)).
  - split; [reflexivity|].
    destruct (malformed_responses_fail sending 0 example_artifact
                {| transcription := false; reformatting := false |}
                Rejected (json_object [("title", "T")]%string) ApiError
                (JObject [("title"%string, JString "T")]))
      as (_ & _ & _ & _ & _ & H).
    destruct (H eq_refl) as (H1 & _ & H2 & _).
    split; [exact H1|]. split; [exact (proj1 (H2 eq_refl))|].
    destruct (malformed_responses_fail reformatting_now 1 example_artifact
                {| transcription := false; reformatting := false |}
                Rejected (json_object [("title", "T")]%string) ApiError
                (JObject [("title"%string, JString "T")]))
      as (_ & _ & _ & _ & _ & H').
    destruct (H' eq_refl) as (_ & _ & _ & H3).
    exact (proj1 (H3 eq_refl)).
Defined.

(** C3 as stated fails.  A response whose body is a JSON object without
    [content] makes neither operation fail: the object is returned, stored as
    the result, and no error is set. *)
Lemma response_without_content_is_accepted :
  transcribeAudio_result response_without_content
  = inr (JObject [("title"%string, JString "T")])
  /\ reformatText_result response_without_content
     = inr (JObject [("title"%string, JString "T")])
  /\ content (JObject [("title"%string, JString "T")]) = JUndefined
  /\ app (sending |> step (GenerateContentSettled 0 response_without_content))
     = {| isLoading := {| transcription := false; reformatting := false |};
          error := None;
          transcriptionResult := JObject [("title"%string, JString "T")];
          reformattedResult := JNull |}
  /\ error (app (reformatting_now
                 |> step (GenerateContentSettled 1 response_without_content)))
     = None
  /\ reformattedResult (app (reformatting_now
                             |> step (GenerateContentSettled 1 response_without_content)))
     = JObject [("title"%string, JString "T")].
Proof. repeat split; reflexivity. Qed.

(** C4, as the code has it.  [onSend] itself clears both stored results
    before anything is sent.  A failure, of the encoding or of the remote
    call, stores nothing: it leaves [transcriptionResult] as it was when the
    failure arrived, so right after a failed send it is null, whatever it
    held before the send. *)
Theorem failed_transcription_leaves_null (w : World) (audioBlob : Blob)
    (base64Audio : string) (r : Settled) (e : Exn) :
  let n := length (tasks (browser w)) in
  let failed :=
    {| isLoading := {| transcription := false; reformatting := false |};
       error := Some "Failed to transcribe audio. Please try again."%string;
       transcriptionResult := JNull;
       reformattedResult := JNull |} in
  transcriptionResult (app (handleSendAudio audioBlob w)) = JNull
  /\ app (w |> handleSendAudio audioBlob |> step (BlobToBase64Settled n None)) = failed
  /\ (transcribeAudio_result r = inl e ->
      app (w |> handleSendAudio audioBlob
             |> step (BlobToBase64Settled n (Some base64Audio))
             |> step (GenerateContentSettled n r)) = failed)
  /\ (forall i b, tasks (browser w) !! i = Some (AwaitTranscribe b) ->
        transcribeAudio_result r = inl e ->
        transcriptionResult (app (step (GenerateContentSettled i r) w))
        = transcriptionResult (app w)).
Proof.
  intros n failed. split; [reflexivity|]. split; [|split].
  - subst n. rewrite (step_base64 _ _ audioBlob).
    + reflexivity.
    + unfold handleSendAudio, suspend. cbn. now apply lookup_newest.
  - intros Hr. subst n. rewrite send_encoded.
    rewrite (step_transcribed _ _ audioBlob).
    + unfold handleSendAudio_settled. rewrite Hr. reflexivity.
    + cbn. now apply lookup_newest.
  - intros i b H Hr. rewrite (step_transcribed _ _ b) by assumption.
    unfold handleSendAudio_settled. rewrite Hr. reflexivity.
Qed.

Lemma failed_transcription_leaves_null_witness :
  transcribeAudio_result Rejected = inl ApiError
  /\ app (transcribed |> handleSendAudio another_artifact
                      |> step (BlobToBase64Settled 1 (Some "GkXfoxpF36M="%string))
                      |> step (GenerateContentSettled 1 Rejected))
     = {| isLoading := {| transcription := false; reformatting := false |};
          error := Some "Failed to transcribe audio. Please try again."%string;
          transcriptionResult := JNull;
          reformattedResult := JNull |}
  /\ tasks (browser sending) !! 0%nat = Some (AwaitTranscribe example_artifact)
  /\ transcriptionResult (app (step (GenerateContentSettled 0 Rejected) sending))
     = transcriptionResult (app sending).
Proof.
  split; [reflexivity|]. split; [|split; [reflexivity|]].
  - destruct (failed_transcription_leaves_null transcribed another_artifact
                "GkXfoxpF36M="%string Rejected ApiError) as (_ & _ & H & _).
    exact (H eq_refl).
  - destruct (failed_transcription_leaves_null sending another_artifact
                "GkXfoxpF36M="%string Rejected ApiError) as (_ & _ & _ & H).
    exact (H 0%nat example_artifact eq_refl eq_refl).
Defined.

(** C4 as stated fails.  A first send succeeded, so [transcriptionResult]
    holds its answer; a second send fails, and afterwards
    [transcriptionResult] is null, not the value it held before that send. *)
Lemma failed_send_loses_earlier_result :
  transcriptionResult (app transcribed)
  = JObject [("title"%string, JString "T");
             ("content"%string, JString (text [0x41; 0x0A; 0x0A; 0x42]%N))]
  /\ transcriptionResult
       (app (transcribed |> handleSendAudio another_artifact
                         |> step (BlobToBase64Settled 1 (Some "GkXfoxpF36M="%string))
                         |> step (GenerateContentSettled 1 Rejected)))
     = JNull
  /\ transcriptionResult
       (app (transcribed |> handleSendAudio another_artifact
                         |> step (BlobToBase64Settled 1 (Some "GkXfoxpF36M="%string))
                         |> step (GenerateContentSettled 1 Rejected)))
     <> transcriptionResult (app transcribed).
Proof. repeat split; try reflexivity. discriminate. Qed.

Section Timer.

Lemma assoc_remove_key (id : nat) (l : list (nat * Z)) : assoc id (remove_key id l) = None.
Proof.
  induction l as [|[k v] l IH]; cbn; [reflexivity|].
  destruct (Nat.eqb id k) eqn:E; cbn; [assumption|]. now rewrite E.
Qed.

Lemma assoc_newest (id : nat) (s : Z) (l : list (nat * Z)) :
  assoc id l = None -> assoc id (l ++ [(id, s)]) = Some s.
Proof.
  induction l as [|[k v] l IH]; cbn; intros H.
  - now rewrite Nat.eqb_refl.
  - destruct (Nat.eqb id k); [discriminate|auto].
Qed.

(** X5.  While its timer runs, [elapsedTime] never goes down from one tick
    to the next, however long the tick is delayed (a delay is not negative:
    [Z.max 0 d] milliseconds). *)
Lemma tick_is_monotone (w : World) (id : nat) (s d : Z) :
  assoc id (intervals (browser w)) = Some s ->
  elapsedTime (pane w) * 1000 <= now (browser w) - s ->
  let w' := run [Elapse (Z.max 0 d); IntervalFires id] w in
  elapsedTime (pane w) <= elapsedTime (pane w')
  /\ elapsedTime (pane w') * 1000 <= now (browser w') - s.
Proof.
  intros H Hle w'. subst w'. cbn -[Z.add Z.sub Z.mul Z.div Z.max]. rewrite H.
  cbn -[Z.add Z.sub Z.mul Z.div Z.max]. split.
  - apply Z.div_le_lower_bound; lia.
  - rewrite Z.mul_comm. apply Z.mul_div_le. lia.
Qed.

(** With no timer running, no tick changes anything. *)
Lemma no_timer_no_tick (w : World) (id : nat) :
  intervals (browser w) = [] -> step (IntervalFires id) w = w.
Proof. intros H. cbn. now rewrite H. Qed.

(** X7.  Pausing clears the timer the ref points to. *)
Lemma pause_stops_the_timer (w : World) (id : nat) :
  timerIntervalRef (refs w) = Some id ->
  mediaRecorderRef (refs w) <> Some inactive ->
  assoc id (intervals (browser (handlePause w))) = None.
Proof.
  intros H Hr. unfold handlePause, optional_call, if_set.
  destruct (mediaRecorderRef (refs w)) as [[]|]; cbn; try congruence;
    rewrite H; repeat case_match; cbn; apply assoc_remove_key.
Qed.

(** X6.  Resuming starts a timer that counts on from the frozen value: its
    tick after a delay of [Z.max 0 d] milliseconds shows the frozen value
    plus the whole seconds of the delay. *)
Lemma resume_continues (w : World) (d : Z) :
  recordingState (pane w) = Paused ->
  mediaRecorderRef (refs w) <> Some inactive ->
  assoc (nextHandle (browser w)) (intervals (browser w)) = None ->
  elapsedTime
    (pane (run [Elapse (Z.max 0 d); IntervalFires (nextHandle (browser w))] (handleRecord w)))
  = elapsedTime (pane w) + Z.max 0 d / 1000.
Proof.
  intros H Hr Hfresh. unfold handleRecord, optional_call. rewrite H.
  assert (E : forall w1 : World,
             intervals (browser w1) = intervals (browser w) ->
             nextHandle (browser w1) = nextHandle (browser w) ->
             now (browser w1) = now (browser w) ->
             elapsedTime
               (pane (run [Elapse (Z.max 0 d); IntervalFires (nextHandle (browser w))]
                        (w1 |> setRecordingState Recording
                            |> startTimer (elapsedTime (pane w))
                            |> monitorAudioLevel)))
             = elapsedTime (pane w) + Z.max 0 d / 1000).
  { intros w1 Hi Hn Hnow. unfold monitorAudioLevel, startTimer, setInterval.
    destruct (analyserRef _) eqn:Ea; cbn -[Z.add Z.sub Z.mul Z.div Z.max];
      rewrite Hi, Hn, (assoc_newest _ _ _ Hfresh); cbn -[Z.add Z.sub Z.mul Z.div Z.max];
      rewrite Hnow;
      replace (now (browser w) + Z.max 0 d - (now (browser w) - elapsedTime (pane w) * 1000))
        with (Z.max 0 d + elapsedTime (pane w) * 1000) by lia;
      rewrite Z.div_add by lia; lia. }
  destruct (mediaRecorderRef (refs w)) as [[]|]; cbn -[run]; try congruence;
    apply E; reflexivity.
Qed.

End Timer.

Lemma div_1000 (a k : Z) : 1000 * k <= a < 1000 * (k + 1) -> a / 1000 = k.
Proof. intros H. symmetry. apply (Z.div_unique a 1000 k (a - 1000 * k)); lia. Qed.

(** Settles one quotient by 1000 in the goal whose value is [k]. *)
Ltac settle_div k :=
  match goal with
  | |- context [?a / 1000] => rewrite (div_1000 a k) by lia
  end.

(** X4.  The session the specification tests, from the page as loaded: record,
    three ticks, pause, record, two ticks, stop.  Each tick may come late by
    less than a second; the pauses between the other events are arbitrary.
    [elapsedTime] reads 1, 2, 3 at the first three ticks, stays 3 all through
    the pause (no timer handle [k] ticks then), reads 4 and 5 after resuming,
    and is 5 at the end, when exactly one artifact has been built. *)
Theorem session_elapsed_time (ai : GoogleGenAI) (t0 : Z) (event_data : Blob) (k : nat)
    (d0 d1 d2 d3 p1 p2 e1 e2 q : Z) :
  1000 <= d1 < 2000 -> 2000 <= d1 + d2 < 3000 -> 3000 <= d1 + d2 + d3 < 4000 ->
  1000 <= e1 < 2000 -> 2000 <= e1 + e2 < 3000 ->
  let es := session event_data k d0 d1 d2 d3 p1 p2 e1 e2 q in
  let w := run es (init ai t0) in
  elapsedTime (pane w) = 5
  /\ recordingState (pane w) = Stopped
  /\ artifacts (browser w) = [new_Blob [event_data] "audio/webm"]
  /\ audioBlob (pane w) = Some (new_Blob [event_data] "audio/webm")
  /\ elapsed_along es (init ai t0)
     = [0; 0; 0;  0; 1;  1; 2;  2; 3;  3; 3; 3; 3;  3;  3; 4;  4; 5;  5; 5; 5].
Proof.
  intros H1 H2 H3 H4 H5 es w. subst w es.
  cbv -[Z.add Z.sub Z.mul Z.div Z.max].
  settle_div 1. settle_div 2. settle_div 3. settle_div 4. settle_div 5.
  repeat split; reflexivity.
Qed.

Lemma session_elapsed_time_witness :
  (1000 <= 1000 < 2000 /\ 2000 <= 1000 + 1000 < 3000 /\ 3000 <= 1000 + 1000 + 1000 < 4000
   /\ 1000 <= 1200 < 2000 /\ 2000 <= 1200 + 900 < 3000)
  /\ elapsedTime
       (pane (run (session example_chunk 1 250 1000 1000 1000 400 7000 1200 900 100) page0))
     = 5.
Proof.
  split; [lia|].
  apply (session_elapsed_time example_ai 0 example_chunk 1
           250 1000 1000 1000 400 7000 1200 900 100); lia.
Defined.

(** C6.  The code breaks it.  [startTimer] stores the handle of the new timer
    over the one [timerIntervalRef] held, and Record can be clicked again
    while the microphone request of the first click is pending.  After two
    grants two timers run and Pause clears only the second: the session is
    [Paused] with [elapsedTime] 0, five seconds pass, the first timer fires,
    and [elapsedTime] is 5 while the session is still [Paused]. *)
Theorem second_start_leaks_the_timer :
  recordingState (pane (run double_start page0)) = Paused
  /\ elapsedTime (pane (run double_start page0)) = 0
  /\ timerIntervalRef (refs (run double_start page0)) = Some 3%nat
  /\ intervals (browser (run double_start page0)) = [(1%nat, 0)]
  /\ recordingState (pane (run (double_start ++ [Elapse 5000; IntervalFires 1]) page0))
     = Paused
  /\ elapsedTime (pane (run (double_start ++ [Elapse 5000; IntervalFires 1]) page0)) = 5.
Proof. repeat split; reflexivity. Qed.


Ltac table_cases w :=
  unfold follows_table, step, click, canRecord, canPause, canStop, canCancel, canSend;
  destruct (isBusy w); cbn;
  destruct (recordingState (pane w)) eqn:Hstate; cbn; auto;
  unfold_handlers; cbn; rewrite ?Hstate;
  repeat (case_match; simplify_eq/=); auto; congruence.

(** Through the controls the table is kept.  Every click on the record/pause
    toggle, on Stop, on Cancel or on Send leaves [recordingState] unchanged
    or takes a listed transition; in [Idle] and [Stopped] a click on Stop
    changes nothing at all and the toggle never pauses. *)
Lemma controls_keep_the_table (w : World) :
  (follows_table (recordingState (pane w)) (if canRecord w then record else pause)
     (recordingState (pane (step ClickRecordPause w)))
   /\ follows_table (recordingState (pane w)) stop (recordingState (pane (step ClickStop w)))
   /\ follows_table (recordingState (pane w)) cancel
        (recordingState (pane (step ClickCancel w)))
   /\ follows_table (recordingState (pane w)) send (recordingState (pane (step ClickSend w))))
  /\ (recordingState (pane w) = Idle \/ recordingState (pane w) = Stopped ->
      step ClickStop w = w
      /\ recordingState (pane (step ClickRecordPause w)) = recordingState (pane w)).
Proof.
  split.
  - repeat split; table_cases w.
  - intros [H|H]; (split; [unfold step, click, canStop; rewrite H; cbn;
                                now rewrite orb_true_r|]).
    + unfold step, click, canRecord, canPause. rewrite H. cbn.
      destruct (isBusy w); cbn; [congruence|].
      unfold handleRecord. rewrite H. cbn. congruence.
    + unfold step, click, canRecord, canPause. rewrite H. cbn.
      rewrite orb_true_r. congruence.
Qed.

(** C5.  The code breaks it.  The buttons keep the table, but the
    continuation of [handleRecord] after its [await] (lines 95-101) sets
    [Recording] without reading the state.  Record can be clicked again while
    the first request for the microphone is pending; when the second grant
    arrives after the recording was stopped, the session goes from [Stopped]
    to [Recording], a transition the table lists for no event. *)
Theorem late_grant_leaves_the_table :
  recordingState (pane (run stopped_with_a_request_pending page0)) = Stopped
  /\ tasks (browser (run stopped_with_a_request_pending page0)) !! 1%nat
     = Some (AwaitUserMedia 0)
  /\ recordingState
       (pane (run (stopped_with_a_request_pending ++ [UserMediaSettled 1 true]) page0))
     = Recording
  /\ forallb (fun e => negb (table Stopped e Recording)) [record; pause; stop; cancel; send]
     = true.
Proof. repeat split; reflexivity. Qed.

Section MediaType.

Lemma step_media_type (e : Event) (w : World) :
  media_type_invariant w -> media_type_invariant (step e w).
Proof.
  intros (Ha & Hb & Ht & Hr).
  assert (Hlook : forall i t, tasks (browser w) !! i = Some t -> carries_webm t).
  { intros i t H. eapply Forall_lookup_1; eassumption. }
  unfold media_type_invariant.
  by_cases_of e;
    repeat match goal with
           | H : tasks (browser w) !! _ = Some _ |- _ => apply Hlook in H; cbn in H
           end;
    (split; [|split; [|split]]);
    try assumption;
    repeat first
      [ apply Forall_app; split
      | apply Forall_insert
      | assumption
      | apply Forall_cons; split
      | apply Forall_nil
      | exact I
      | reflexivity
      | progress cbn
      | intros ? [= <-]
      | intros ? [=]
      | now apply Hb
      | now split
      | congruence ].
Qed.

Lemma run_media_type (es : list Event) (w : World) :
  media_type_invariant w -> media_type_invariant (run es w).
Proof.
  revert w. induction es as [|e es IH]; intros w H; cbn; [assumption|].
  apply IH. now apply step_media_type.
Qed.

End MediaType.

(** C10.  Whatever the page goes through, and whatever blobs the recorder
    hands over, every blob built on stop has type [audio/webm], so has the
    blob ready to be sent and the blob of every send under way, and every
    transcription request made so far carries [audio/webm] as its media
    type.  Whenever the encoding of a send under way completes, the request
    made is the transcription request with the encoded audio and the media
    type [audio/webm].  The blob built on stop is the chunks collected, under
    that constant type. *)
Theorem artifacts_are_webm (ai : GoogleGenAI) (t0 : Z) (es : list Event) :
  media_type_invariant (run es (init ai t0))
  /\ (forall (i : nat) (audioBlob : Blob) (base64Audio : string),
        tasks (browser (run es (init ai t0))) !! i = Some (AwaitBlobToBase64 audioBlob) ->
        requests (browser (step (BlobToBase64Settled i (Some base64Audio))
                             (run es (init ai t0))))
        = requests (browser (run es (init ai t0)))
          ++ [{| client := ai; model := "gemini-2.5-flash";
                 contents := Parts base64Audio "audio/webm" |}])
  /\ (forall (w : World) (event_data : Blob),
        audioBlob (pane (w |> ondataavailable event_data |> onstop))
        = Some (new_Blob (audioChunksRef (refs w) ++ [event_data]) "audio/webm"))
  /\ (forall parts : list Blob, type (new_Blob parts "audio/webm") = "audio/webm"%string).
Proof.
  assert (H : media_type_invariant (run es (init ai t0))).
  { apply run_media_type. repeat split; try constructor. discriminate. }
  split; [exact H|split; [|split]].
  - intros i audioBlob base64Audio Hi. destruct H as (_ & _ & Ht & _).
    pose proof (Forall_lookup_1 _ _ _ _ Ht Hi) as Hb. cbn in Hb. unfold webm in Hb.
    rewrite (step_base64 _ _ _ _ Hi). unfold handleSendAudio_base64, resume, generateContent.
    cbn. unfold transcribeAudio_call. now rewrite Hb, run_ai.
  - intros w event_data. unfold onstop, ondataavailable, cleanup, if_set.
    repeat (case_match; simplify_eq/=); reflexivity.
  - reflexivity.
Qed.

Lemma artifacts_are_webm_witness :
  tasks (browser (run record_and_send page0)) !! 1%nat
  = Some (AwaitBlobToBase64 example_artifact)
  /\ requests (browser (step (BlobToBase64Settled 1 (Some "GkXfow=="%string))
                          (run record_and_send page0)))
     = requests (browser (run record_and_send page0))
       ++ [{| client := example_ai; model := "gemini-2.5-flash";
              contents := Parts "GkXfow==" "audio/webm" |}].
Proof.
  split; [reflexivity|].
  exact (proj1 (proj2 (artifacts_are_webm example_ai 0 record_and_send))
           1%nat example_artifact "GkXfow=="%string eq_refl).
Defined.

(* ===================================================================== *)
(** ** Further properties: the displayed time *)
(* ===================================================================== *)

Section Time.

Lemma two_digits_nat (k : nat) :
  (k < 100)%nat ->
  padStart 2 "0" (Number_toString (Z.of_nat k))
  = String (digit (Z.of_nat k / 10)) (String (digit (Z.of_nat k mod 10)) EmptyString).
Proof.
  intros H.
  assert (E : forallb (fun k => String.eqb
                (padStart 2 "0" (Number_toString (Z.of_nat k)))
                (String (digit (Z.of_nat k / 10))
                   (String (digit (Z.of_nat k mod 10)) EmptyString)))
              (seq 0 100) = true) by (vm_compute; reflexivity).
  rewrite forallb_forall in E. apply String.eqb_eq, E, in_seq. lia.
Qed.

Lemma two_digits (n : Z) :
  0 <= n < 100 ->
  padStart 2 "0" (Number_toString n)
  = String (digit (n / 10)) (String (digit (n mod 10)) EmptyString).
Proof.
  intros H. rewrite <- (Z2Nat.id n) by lia. apply two_digits_nat. lia.
Qed.

(** X1.  Up to 99 minutes and 59 seconds the time is shown as two digits of
    minutes, a colon, and two digits of seconds. *)
Theorem formatTime_shape (seconds : Z) :
  0 <= seconds < 6000 ->
  formatTime seconds
  = String (digit (seconds / 600))
      (String (digit (seconds / 60 mod 10))
         (String COLON
            (String (digit (seconds mod 60 / 10))
               (String (digit (seconds mod 60 mod 10)) EmptyString)))).
Proof.
  intros H. unfold formatTime.
  assert (Hm : 0 <= seconds / 60 < 100).
  { split; [apply Z.div_pos; lia|]. apply Z.div_lt_upper_bound; lia. }
  assert (Hs : 0 <= seconds mod 60 < 100).
  { pose proof (Z.mod_pos_bound seconds 60). lia. }
  rewrite Z.rem_mod_nonneg by lia.
  rewrite (two_digits _ Hm), (two_digits _ Hs), Z.div_div by lia. reflexivity.
Qed.

Lemma formatTime_shape_witness : formatTime 75 = "01:15"%string.
Proof. apply (formatTime_shape 75). lia. Defined.

Lemma read_digits_zero (s : string) : read_digits (String "0" s) = read_digits s.
Proof. unfold read_digits. cbn. now destruct (NilEmpty.uint_of_string s). Qed.

Lemma read_digits_padStart (s : string) :
  read_digits (padStart 2 "0" s) = read_digits s.
Proof.
  unfold padStart. destruct (2 - String.length s)%nat as [|[|[|k]]] eqn:E;
    cbn [filler String.append]; rewrite ?read_digits_zero; try reflexivity. lia.
Qed.

Lemma read_digits_uint (d : Decimal.uint) :
  read_digits (NilZero.string_of_uint d) = Some (Z.of_N (N.of_uint d)).
Proof.
  unfold read_digits.
  destruct d; [reflexivity|..]; unfold NilZero.string_of_uint; now rewrite NilEmpty.usu.
Qed.

Lemma read_digits_toString (n : Z) : 0 <= n -> read_digits (Number_toString n) = Some n.
Proof.
  intros H. unfold Number_toString.
  destruct n as [|p|p]; [reflexivity| |lia].
  cbn [Z.to_int NilZero.string_of_int]. rewrite read_digits_uint.
  unfold N.of_uint. now rewrite DecimalPos.Unsigned.of_to.
Qed.

Lemma no_colon_uint (d : Decimal.uint) : no_colon (NilEmpty.string_of_uint d) = true.
Proof. induction d; cbn; auto. Qed.

Lemma no_colon_toString (n : Z) : 0 <= n -> no_colon (Number_toString n) = true.
Proof.
  intros H. unfold Number_toString.
  destruct n as [|p|p]; [reflexivity| |lia].
  cbn [Z.to_int NilZero.string_of_int]. unfold NilZero.string_of_uint.
  destruct (Pos.to_uint p) eqn:E; try (rewrite <- E; apply no_colon_uint). reflexivity.
Qed.

Lemma no_colon_padStart (s : string) :
  no_colon s = true -> no_colon (padStart 2 "0" s) = true.
Proof.
  intros H. unfold padStart. destruct (2 - String.length s)%nat as [|[|[|k]]] eqn:E;
    cbn [filler String.append no_colon]; try assumption; try lia.
  all: cbn; assumption.
Qed.

Lemma cut_colon_app (p q : string) :
  no_colon p = true -> cut_colon (p ++ String COLON q) = (p, q).
Proof.
  induction p as [|a p IH]; cbn [String.append cut_colon no_colon]; intros H.
  - now rewrite Ascii.eqb_refl.
  - apply andb_prop in H as [Ha Hp]. apply negb_true_iff in Ha. rewrite Ha.
    now rewrite (IH Hp).
Qed.

(** The text shown for a time that is not negative reads back as that
    time, however many digits the minutes take. *)
Lemma read_time_formatTime (seconds : Z) :
  0 <= seconds -> read_time (formatTime seconds) = Some seconds.
Proof.
  intros H. unfold read_time, formatTime.
  assert (Hm : 0 <= seconds / 60) by (apply Z.div_pos; lia).
  assert (Hs : 0 <= Z.rem seconds 60) by (apply Z.rem_nonneg; lia).
  change (":" ++ ?x)%string with (String COLON x).
  rewrite cut_colon_app by (apply no_colon_padStart, no_colon_toString; assumption).
  rewrite !read_digits_padStart, !read_digits_toString by assumption.
  f_equal. rewrite Z.rem_mod_nonneg by lia. pose proof (Z.div_mod seconds 60). lia.
Qed.

(** X2.  Two different times are never shown as the same text, also past
    99 minutes, where the minutes take more than two digits.  The times are
    taken below [2^32] seconds, where the quotient by 60 is computed exactly
    and [toString] writes all the digits. *)
Theorem formatTime_injective (a b : Z) :
  0 <= a < 2 ^ 32 -> 0 <= b < 2 ^ 32 -> formatTime a = formatTime b -> a = b.
Proof.
  intros Ha Hb E. apply (f_equal read_time) in E.
  rewrite !read_time_formatTime in E by lia. congruence.
Qed.

Lemma formatTime_injective_witness :
  formatTime (6000 + 15) = formatTime 6015 /\ 6000 + 15 = 6015.
Proof.
  split; [reflexivity|].
  apply (formatTime_injective (6000 + 15) 6015); [lia|lia|reflexivity].
Defined.

End Time.

(* ===================================================================== *)
(** ** Further properties: the paragraphs of a result card *)
(* ===================================================================== *)

Section Paragraphs.

Lemma split_cons (a : ascii) (rest : string) :
  split_blank_lines (String a rest)
  = match rest with
    | String b rest' =>
        if Ascii.eqb a LF && Ascii.eqb b LF
        then EmptyString :: split_blank_lines rest'
        else match split_blank_lines rest with
             | p :: ps => String a p :: ps
             | [] => [String a EmptyString]
             end
    | EmptyString => [String a EmptyString]
    end.
Proof. reflexivity. Qed.

(** An induction that follows the two ways [split_blank_lines] recurs. *)
Lemma split_ind (P : string -> Prop) :
  P EmptyString ->
  (forall a, P (String a EmptyString)) ->
  (forall a b rest, P rest -> P (String b rest) -> P (String a (String b rest))) ->
  forall s, P s.
Proof.
  intros H0 H1 H2 s.
  enough (H : P s /\ forall a, P (String a s)) by apply H.
  induction s as [|b rest [IH IH']]; split; auto.
Qed.

Lemma split_nonempty (s : string) : split_blank_lines s <> [].
Proof.
  induction s as [|a|a b rest IH1 IH2] using split_ind; try discriminate.
  rewrite split_cons. destruct (Ascii.eqb a LF && Ascii.eqb b LF); [discriminate|].
  destruct (split_blank_lines (String b rest)); discriminate.
Qed.

Lemma concat_cons (sep a : string) (c : ascii) (l : list string) :
  String.concat sep (String c a :: l) = String c (String.concat sep (a :: l)).
Proof. destruct l; reflexivity. Qed.

(** X8.  The paragraphs of a result card, joined again by blank lines, are
    the content: the split loses and adds nothing. *)
Theorem join_split (s : string) : String.concat blank_line (split_blank_lines s) = s.
Proof.
  induction s as [|a|a b rest IH1 IH2] using split_ind; try reflexivity.
  rewrite split_cons. destruct (Ascii.eqb a LF && Ascii.eqb b LF) eqn:E.
  - apply andb_prop in E as [Ea Eb]. apply Ascii.eqb_eq in Ea, Eb. subst a b.
    pose proof (split_nonempty rest) as Hne.
    destruct (split_blank_lines rest) as [|p ps] eqn:Es; [congruence|].
    change (String.concat blank_line (EmptyString :: p :: ps))
      with (EmptyString ++ blank_line ++ String.concat blank_line (p :: ps))%string.
    rewrite IH1. reflexivity.
  - pose proof (split_nonempty (String b rest)) as Hne.
    destruct (split_blank_lines (String b rest)) as [|p ps] eqn:Es; [congruence|].
    rewrite concat_cons, IH2. reflexivity.
Qed.

Lemma split_head (b : ascii) (rest : string) :
  exists p ps, split_blank_lines (String b rest) = p :: ps
               /\ (p = EmptyString \/ exists p', p = String b p').
Proof.
  rewrite split_cons. destruct rest as [|c rest']; [eauto 6|].
  destruct (Ascii.eqb b LF && Ascii.eqb c LF); [eauto 6|].
  destruct (split_blank_lines (String c rest')); eauto 6.
Qed.

(** X9.  No paragraph of a result card holds a blank line. *)
Theorem paragraphs_hold_no_blank_line (s : string) :
  Forall (fun p => has_blank_line p = false) (split_blank_lines s).
Proof.
  induction s as [|a|a b rest IH1 IH2] using split_ind.
  - repeat constructor.
  - repeat constructor.
  - rewrite split_cons. destruct (Ascii.eqb a LF && Ascii.eqb b LF) eqn:E.
    + constructor; [reflexivity|assumption].
    + destruct (split_head b rest) as (p & ps & Es & Hp). rewrite Es in *.
      inversion IH2 as [|? ? Hp' Hps]; subst. constructor; [|assumption].
      destruct Hp as [->|[p' ->]]; [reflexivity|].
      cbn [has_blank_line]. rewrite E. exact Hp'.
Qed.

Lemma has_blank_line_split (s : string) :
  has_blank_line s = false -> split_blank_lines s = [s].
Proof.
  induction s as [|a|a b rest IH1 IH2] using split_ind; try reflexivity.
  cbn [has_blank_line]. intros H. apply orb_false_elim in H as [E H].
  rewrite split_cons, E, (IH2 H). reflexivity.
Qed.

End Paragraphs.

(* ===================================================================== *)
(** ** Further properties: a well-formed response *)
(* ===================================================================== *)

Section HappyPath.

Lemma bytes_app (a b : string) : bytes (a ++ b) = bytes a ++ bytes b.
Proof.
  unfold bytes. induction a as [|c a IH]; cbn; [reflexivity|]. now rewrite <- IH.
Qed.

Lemma text_bytes (s : string) : text (bytes s) = s.
Proof.
  unfold text, bytes. rewrite map_map.
  rewrite (map_ext _ (fun a => a)) by apply ascii_N_embedding.
  rewrite map_id. apply string_of_list_ascii_of_string.
Qed.

Lemma lex_run_app (st : Lex * list Token) (x y : list N) :
  lex_run st (x ++ y)
  = match lex_run st x with Some st' => lex_run st' y | None => None end.
Proof.
  revert st. induction x as [|c x IH]; intros st; cbn; [reflexivity|].
  destruct (lex_step st c); [apply IH|reflexivity].
Qed.

Lemma lex_plain (l acc : list N) (toks : list Token) :
  forallb plain_byte l = true ->
  lex_run (LStr acc, toks) l = Some (LStr (rev l ++ acc), toks).
Proof.
  revert acc. induction l as [|c l IH]; intros acc H; cbn [lex_run]; [reflexivity|].
  cbn [forallb] in H. apply andb_prop in H as [Hc Hl].
  unfold plain_byte in Hc. apply andb_prop in Hc as [Hc H3]. apply andb_prop in Hc as [H1 H2].
  apply negb_true_iff in H2, H3. apply N.leb_le in H1.
  cbn [lex_step]. rewrite H2, H3.
  destruct (N.ltb_spec c 0x20); [lia|].
  rewrite IH by assumption. cbn [rev]. now rewrite <- app_assoc.
Qed.

Lemma lex_object_opens (toks : list Token) (rest : list N) :
  lex_run (LIdle, toks)
    (bytes "{" ++ bytes quote ++ bytes "title" ++ bytes quote ++ bytes ":" ++ bytes quote
     ++ rest)
  = lex_run (LStr [], TColon :: TString "title" :: TLBrace :: toks) rest.
Proof. reflexivity. Qed.

Lemma lex_object_continues (acc : list N) (toks : list Token) (rest : list N) :
  lex_run (LStr acc, toks)
    (bytes quote ++ bytes "," ++ bytes quote ++ bytes "content" ++ bytes quote ++ bytes ":"
     ++ bytes quote ++ rest)
  = lex_run (LStr [], TColon :: TString "content" :: TComma :: TString (text (rev acc)) :: toks)
      rest.
Proof. reflexivity. Qed.

Lemma lex_object_closes (acc : list N) (toks : list Token) :
  match lex_run (LStr acc, toks) (bytes quote ++ bytes "}") with
  | Some st => lex_finish st
  | None => None
  end
  = Some (rev (TRBrace :: TString (text (rev acc)) :: toks)).
Proof. reflexivity. Qed.

Lemma lex_escaped_blank_line (acc : list N) (toks : list Token) (rest : list N) :
  lex_run (LStr acc, toks) (bytes escaped_blank_line ++ rest)
  = lex_run (LStr (rev (bytes blank_line) ++ acc), toks) rest.
Proof. reflexivity. Qed.

(** Inside a JSON string, paragraphs joined by escaped blank lines are read
    as the paragraphs joined by blank lines. *)
Lemma lex_paragraphs (p : string) (pars : list string) (acc : list N) (toks : list Token) :
  Forall (fun p => plain p = true) (p :: pars) ->
  lex_run (LStr acc, toks) (bytes (String.concat escaped_blank_line (p :: pars)))
  = Some (LStr (rev (bytes (String.concat blank_line (p :: pars))) ++ acc), toks).
Proof.
  revert p acc. induction pars as [|q pars IH]; intros p acc H.
  - inversion H; subst. cbn [String.concat]. now apply lex_plain.
  - inversion H as [|? ? Hp Hrest]; subst.
    change (String.concat escaped_blank_line (p :: q :: pars))
      with (p ++ escaped_blank_line ++ String.concat escaped_blank_line (q :: pars))%string.
    change (String.concat blank_line (p :: q :: pars))
      with (p ++ blank_line ++ String.concat blank_line (q :: pars))%string.
    rewrite !bytes_app, lex_run_app, (lex_plain (bytes p)) by exact Hp.
    rewrite lex_escaped_blank_line, IH by assumption.
    rewrite !rev_app_distr, <- !app_assoc. reflexivity.
Qed.

Lemma tokens_of_body (t p : string) (pars : list string) :
  plain t = true -> Forall (fun p => plain p = true) (p :: pars) ->
  tokenize (body_of t (p :: pars))
  = Some [TLBrace; TString "title"; TColon; TString t; TComma;
          TString "content"; TColon; TString (String.concat blank_line (p :: pars)); TRBrace].
Proof.
  intros Ht Hc. unfold tokenize, body_of, json_object, json_member.
  cbn [map fst snd].
  match goal with
  | |- context [String.concat ?s [?a; ?b]] =>
      change (String.concat s [a; b]) with (a ++ s ++ b)%string
  end.
  rewrite !bytes_app, <- !app_assoc. unfold plain in Ht.
  rewrite lex_object_opens.
  rewrite lex_run_app, lex_plain by assumption.
  rewrite lex_object_continues.
  rewrite lex_run_app, lex_paragraphs by assumption.
  rewrite lex_object_closes.
  rewrite !app_nil_r, !rev_involutive, !text_bytes. reflexivity.
Qed.

Lemma parse_body (t p : string) (pars : list string) :
  plain t = true -> Forall (fun p => plain p = true) (p :: pars) ->
  JSON_parse (body_of t (p :: pars))
  = Some (JObject [("title"%string, JString t);
                   ("content"%string, JString (String.concat blank_line (p :: pars)))]).
Proof.
  intros Ht Hc. unfold JSON_parse. rewrite tokens_of_body by assumption. reflexivity.
Qed.

Lemma strip_open_brace (l : list N) : strip false (0x7B%N :: l) = 0x7B%N :: l.
Proof. destruct l as [|b [|c v]]; reflexivity. Qed.

(** A closing brace ends no white-space code point. *)
Lemma not_after_brace (c b : N) : ws2 b 0x7D = false /\ ws3 c b 0x7D = false.
Proof.
  unfold ws2, ws3.
  repeat match goal with
         | |- context [N.eqb (Npos ?p) (Npos ?q)] =>
             let r := eval vm_compute in (N.eqb (Npos p) (Npos q)) in
             change (N.eqb (Npos p) (Npos q)) with r
         | |- context [N.leb (Npos ?p) (Npos ?q)] =>
             let r := eval vm_compute in (N.leb (Npos p) (Npos q)) in
             change (N.leb (Npos p) (Npos q)) with r
         end.
  cbn [andb orb]. rewrite !andb_false_r. split; reflexivity.
Qed.

Lemma strip_close_brace (l : list N) : strip true (0x7D%N :: l) = 0x7D%N :: l.
Proof.
  destruct l as [|b [|c v]]; [reflexivity| |].
  - cbn [strip]. change (ws1 0x7D) with false. cbv iota.
    now rewrite (proj1 (not_after_brace 0 b)).
  - cbn [strip]. change (ws1 0x7D) with false. cbv iota.
    now rewrite (proj1 (not_after_brace c b)), (proj2 (not_after_brace c b)).
Qed.

Lemma trim_object (members : list (string * string)) :
  trim (json_object members) = json_object members.
Proof.
  unfold trim. rewrite <- (text_bytes (json_object members)) at 2. f_equal.
  unfold json_object. rewrite !bytes_app.
  change (bytes "{") with [0x7B%N]. change (bytes "}") with [0x7D%N].
  change ([0x7B%N] ++ ?l) with (0x7B%N :: l).
  rewrite strip_open_brace. cbn [rev]. rewrite rev_app_distr. cbn [rev].
  rewrite app_nil_l, <- app_assoc. change ([0x7D%N] ++ ?l) with (0x7D%N :: l).
  rewrite strip_close_brace. cbn [rev]. rewrite rev_app_distr, rev_involutive. reflexivity.
Qed.


Lemma plain_cons (a : ascii) (s : string) :
  plain (String a s) = plain_byte (N_of_ascii a) && plain s.
Proof. reflexivity. Qed.

Lemma plain_not_LF (a : ascii) : plain_byte (N_of_ascii a) = true -> Ascii.eqb a LF = false.
Proof.
  intros H. destruct (Ascii.eqb_spec a LF) as [->|]; [discriminate H|reflexivity].
Qed.

Lemma split_plain (p : string) : plain p = true -> split_blank_lines p = [p].
Proof.
  induction p as [|a p IH]; intros H; [reflexivity|].
  rewrite plain_cons in H. apply andb_prop in H as [Ha Hp].
  rewrite split_cons, (plain_not_LF a Ha), (IH Hp). now destruct p.
Qed.

Lemma split_plain_app (p s : string) :
  plain p = true ->
  split_blank_lines (p ++ blank_line ++ s) = p :: split_blank_lines s.
Proof.
  induction p as [|a p IH]; intros H; [reflexivity|].
  rewrite plain_cons in H. apply andb_prop in H as [Ha Hp].
  change (String a p ++ blank_line ++ s)%string with (String a (p ++ blank_line ++ s)).
  rewrite split_cons, (plain_not_LF a Ha), (IH Hp).
  destruct (p ++ blank_line ++ s)%string eqn:E; [|reflexivity].
  destruct p; discriminate E.
Qed.

(** Paragraphs that hold no line feed come back from the text that joins
    them. *)
Lemma split_join (p : string) (pars : list string) :
  Forall (fun p => plain p = true) (p :: pars) ->
  split_blank_lines (String.concat blank_line (p :: pars)) = p :: pars.
Proof.
  revert p. induction pars as [|q pars IH]; intros p H; inversion H; subst.
  - now apply split_plain.
  - change (String.concat blank_line (p :: q :: pars))
      with (p ++ blank_line ++ String.concat blank_line (q :: pars))%string.
    rewrite split_plain_app by assumption. now rewrite IH.
Qed.

End HappyPath.

(* ===================================================================== *)
(** ** Further properties: what the results pane shows *)
(* ===================================================================== *)

Section Display.

Ltac bool_hyps :=
  repeat match goal with
         | H : _ || _ = false |- _ => apply orb_false_elim in H as [? ?]
         | H : negb _ = false |- _ => apply negb_false_iff in H
         | H : negb _ = true |- _ => apply negb_true_iff in H
         end.

(** While the transcribing flag is set no transcription is held. *)
Lemma held_means_idle (w : World) :
  (transcription (isLoading (app w)) = true -> app w = busy) ->
  truthy (transcriptionResult (app w)) = true ->
  transcription (isLoading (app w)) = false.
Proof.
  intros Ht Htr. destruct (transcription (isLoading (app w))) eqn:E; [|reflexivity].
  rewrite (Ht eq_refl) in Htr. discriminate Htr.
Qed.

Lemma step_display (e : Event) (w : World) :
  display_invariant w -> display_invariant (step e w).
Proof.
  intros (Ht & Hr & Hc).
  assert (Hlook : forall i t, tasks (browser w) !! i = Some t -> captured_idle t).
  { intros i t H. eapply Forall_lookup_1; eassumption. }
  pose proof (held_means_idle w Ht) as Hidle.
  unfold display_invariant.
  by_cases_of e;
    repeat match goal with
           | H : tasks (browser w) !! _ = Some _ |- _ => apply Hlook in H; cbn in H
           end;
    bool_hyps;
    (split; [|split]);
    try assumption;
    repeat first
      [ apply Forall_app; split
      | apply Forall_insert
      | assumption
      | apply Forall_cons; split
      | apply Forall_nil
      | exact I
      | reflexivity
      | progress cbn
      | now apply Hidle
      | intros [=]
      | intros _
      | split
      | congruence
      | match goal with
        | H : transcription (isLoading (app w)) = true |- _ =>
            rewrite Hidle in H by assumption; discriminate H
        end ].
Qed.

Lemma run_display (es : list Event) (w : World) :
  display_invariant w -> display_invariant (run es w).
Proof.
  revert w. induction es as [|e es IH]; intros w H; cbn; [assumption|].
  apply IH. now apply step_display.
Qed.

Lemma init_display (ai : GoogleGenAI) (t0 : Z) : display_invariant (init ai t0).
Proof.
  unfold display_invariant. cbn. split; [intros H; discriminate H|].
  split; [intros H; discriminate H|]. constructor.
Qed.

(** X12.  In every state the page reaches, while the transcribing flag is
    set the results pane shows the transcribing spinner and nothing else: no
    error, no card, no reformat form, no placeholder. *)
Theorem transcribing_shows_the_spinner_alone (ai : GoogleGenAI) (t0 : Z) (es : list Event) :
  let w := run es (init ai t0) in
  transcription (isLoading (app w)) = true ->
  ResultsPane (app w)
  = [Rendered TranscribingSpinner; Falsy JNull; Falsy JNull; Falsy JNull; Falsy (JBool false);
     Falsy JNull; Falsy (JBool false)].
Proof.
  intros w H. destruct (run_display es (init ai t0) (init_display ai t0)) as (Ht & _).
  fold w in Ht. rewrite (Ht H). reflexivity.
Qed.

(** X13.  In every state the page reaches, while the transcribing flag is
    set nothing the user can do changes anything: the four recording buttons
    are disabled, and the reformat form and the Clear button are not
    rendered. *)
Theorem transcribing_ignores_the_user (ai : GoogleGenAI) (t0 : Z) (es : list Event)
    (e : Event) :
  let w := run es (init ai t0) in
  transcription (isLoading (app w)) = true ->
  by_user e = true ->
  step e w = w.
Proof.
  intros w H He. destruct (run_display es (init ai t0) (init_display ai t0)) as (Ht & _).
  fold w in Ht. specialize (Ht H).
  destruct e; try discriminate He; cbn; unfold click, isBusy; rewrite ?H, ?Ht; reflexivity.
Qed.

(** X14.  In every state the page reaches, while the reformatting flag is
    set the transcribing flag is not, and the results pane shows the card of
    the transcription, the reformat form with its button disabled, and the
    reformatting spinner: no error and no reformatted card. *)
Theorem reformatting_shows_the_transcription (ai : GoogleGenAI) (t0 : Z) (es : list Event) :
  let w := run es (init ai t0) in
  reformatting (isLoading (app w)) = true ->
  ResultsPane (app w)
  = [Falsy (JBool false); Falsy JNull;
     Rendered (ResultCard (title (transcriptionResult (app w)))
              (content (transcriptionResult (app w))) "Transcription");
     Rendered (ReformatControls true); Rendered ReformattingSpinner; Falsy JNull;
     Falsy (JBool false)].
Proof.
  intros w H. destruct (run_display es (init ai t0) (init_display ai t0)) as (_ & Hr & _).
  fold w in Hr. destruct (Hr H) as (H1 & H2 & H3 & H4).
  unfold ResultsPane, guarded. rewrite H, H1, H2, H3, H4. reflexivity.
Qed.

Lemma transcribing_shows_the_spinner_alone_witness :
  ResultsPane (app (run record_and_send page0))
  = [Rendered TranscribingSpinner; Falsy JNull; Falsy JNull; Falsy JNull; Falsy (JBool false);
     Falsy JNull; Falsy (JBool false)].
Proof.
  apply (transcribing_shows_the_spinner_alone example_ai 0 record_and_send). reflexivity.
Defined.

Lemma transcribing_ignores_the_user_witness :
  step ClickSend (run record_and_send page0) = run record_and_send page0.
Proof.
  apply (transcribing_ignores_the_user example_ai 0 record_and_send ClickSend); reflexivity.
Defined.

Lemma reformatting_shows_the_transcription_witness :
  ResultsPane (app (run record_to_reformat page0))
  = [Falsy (JBool false); Falsy JNull;
     Rendered (ResultCard (title (transcriptionResult (app (run record_to_reformat page0))))
                 (content (transcriptionResult (app (run record_to_reformat page0))))
                 "Transcription");
     Rendered (ReformatControls true); Rendered ReformattingSpinner; Falsy JNull;
     Falsy (JBool false)].
Proof.
  apply (reformatting_shows_the_transcription example_ai 0 record_to_reformat). reflexivity.
Defined.

End Display.

(* ===================================================================== *)
(** ** Further properties: from the response to the card *)
(* ===================================================================== *)

Section Padding.

Lemma strip_blank (backwards : bool) (pad l : list N) :
  forallb ws1 pad = true -> strip backwards (pad ++ l) = strip backwards l.
Proof.
  induction pad as [|a pad IH]; intros H; [reflexivity|].
  cbn [forallb] in H. apply andb_prop in H as [Ha Hp].
  change ((a :: pad) ++ l) with (a :: (pad ++ l)). cbn [strip]. rewrite Ha. now apply IH.
Qed.

Lemma forallb_rev (f : N -> bool) (l : list N) : forallb f (rev l) = forallb f l.
Proof.
  induction l as [|a l IH]; [reflexivity|].
  cbn [rev forallb]. rewrite forallb_app, IH. cbn [forallb]. rewrite andb_true_r.
  apply andb_comm.
Qed.

Lemma trim_padded (lead trail : string) (members : list (string * string)) :
  blank lead = true -> blank trail = true ->
  trim (lead ++ json_object members ++ trail) = json_object members.
Proof.
  intros Hl Ht. rewrite <- (trim_object members) at 2. unfold trim. do 2 f_equal.
  rewrite !bytes_app, strip_blank by exact Hl.
  unfold json_object at 1. rewrite bytes_app. change (bytes "{") with [0x7B%N].
  rewrite <- app_assoc. change ([0x7B%N] ++ ?l) with (0x7B%N :: l).
  rewrite strip_open_brace.
  change (0x7B%N :: ?l ++ bytes trail) with (([0x7B%N] ++ l) ++ bytes trail).
  rewrite rev_app_distr, strip_blank by (now rewrite forallb_rev).
  unfold json_object. rewrite !bytes_app. change (bytes "{") with [0x7B%N].
  change ([0x7B%N] ++ ?l) with (0x7B%N :: l) at 2. rewrite strip_open_brace.
  reflexivity.
Qed.

Lemma append_empty (s : string) : (s ++ EmptyString)%string = s.
Proof. induction s as [|a s IH]; cbn; [reflexivity|now rewrite IH]. Qed.

Lemma parse_response_well_formed (lead trail t p : string) (pars : list string) :
  blank lead = true -> blank trail = true ->
  plain t = true -> Forall (fun p => plain p = true) (p :: pars) ->
  parse_response (Response (Some (lead ++ body_of t (p :: pars) ++ trail)%string))
  = inr (JObject [("title"%string, JString t);
                  ("content"%string, JString (String.concat blank_line (p :: pars)))]).
Proof.
  intros Hl Htr Ht Hp. unfold parse_response, body_of.
  rewrite trim_padded by assumption. fold (body_of t (p :: pars)).
  now rewrite parse_body by assumption.
Qed.

(** X10.  A response whose text is, between white space, a JSON object with
    a title and a content of paragraphs separated by escaped blank lines, none
    of which needs an escape itself, is returned by both calls of the service
    as the record of that title and of those paragraphs joined by blank
    lines. *)
Theorem well_formed_body_parses (lead trail t p : string) (pars : list string) :
  blank lead = true -> blank trail = true ->
  plain t = true -> Forall (fun p => plain p = true) (p :: pars) ->
  let r := Response (Some (lead ++ body_of t (p :: pars) ++ trail)%string) in
  let v := JObject [("title"%string, JString t);
                    ("content"%string, JString (String.concat blank_line (p :: pars)))] in
  transcribeAudio_result r = inr v /\ reformatText_result r = inr v.
Proof.
  intros Hl Htr Ht Hp r v. unfold transcribeAudio_result, reformatText_result, r, v.
  now rewrite parse_response_well_formed by assumption.
Qed.

Lemma well_formed_body_parses_witness :
  transcribeAudio_result
    (Response (Some (" " ++ body_of "T" ["A"; "B"] ++ String LF EmptyString)%string))
  = inr (JObject [("title"%string, JString "T");
                  ("content"%string, JString (String.concat blank_line ["A"; "B"]%string))]).
Proof.
  refine (proj1 (well_formed_body_parses " " (String LF EmptyString) "T" "A" ["B"%string]
                   eq_refl eq_refl eq_refl _)).
  repeat constructor.
Defined.

(** X11.  When such a response settles a transcription under way, the card of
    the transcription gets its title and exactly its paragraphs, both busy
    flags are cleared, and the error and the reformatted result stay; when it
    settles a reformat under way, the same holds of the card of the
    reformatted text, with the transcribing flag as the reformat found it. *)
Theorem response_is_shown_by_paragraphs (w : World) (i : nat) (t p : string)
    (pars : list string) :
  plain t = true -> Forall (fun p => plain p = true) (p :: pars) ->
  let w' := step (GenerateContentSettled i (Response (Some (body_of t (p :: pars))))) w in
  (forall audioBlob, tasks (browser w) !! i = Some (AwaitTranscribe audioBlob) ->
     title (transcriptionResult (app w')) = JString t
     /\ card_paragraphs (transcriptionResult (app w')) = inr (p :: pars)
     /\ isLoading (app w') = {| transcription := false; reformatting := false |}
     /\ error (app w') = error (app w)
     /\ reformattedResult (app w') = reformattedResult (app w))
  /\ (forall l, tasks (browser w) !! i = Some (AwaitReformat l) ->
     title (reformattedResult (app w')) = JString t
     /\ card_paragraphs (reformattedResult (app w')) = inr (p :: pars)
     /\ isLoading (app w') = {| transcription := transcription l; reformatting := false |}
     /\ error (app w') = error (app w)
     /\ transcriptionResult (app w') = transcriptionResult (app w)).
Proof.
  intros Ht Hp w'.
  pose proof (parse_response_well_formed EmptyString EmptyString t p pars
                eq_refl eq_refl Ht Hp) as Hs.
  change (EmptyString ++ ?s)%string with s in Hs. rewrite append_empty in Hs.
  split; intros x Hx; unfold w'.
  - rewrite (step_transcribed _ _ _ _ Hx).
    unfold handleSendAudio_settled, transcribeAudio_result. rewrite Hs.
    unfold card_paragraphs. cbn -[split_blank_lines String.concat].
    rewrite split_join by assumption. auto.
  - rewrite (step_reformatted _ _ _ _ Hx).
    unfold handleReformat_settled, reformatText_result. rewrite Hs.
    unfold card_paragraphs. cbn -[split_blank_lines String.concat].
    rewrite split_join by assumption. auto.
Qed.

Lemma response_is_shown_by_paragraphs_witness :
  card_paragraphs
    (transcriptionResult
       (app (step (GenerateContentSettled 0 (Response (Some (body_of "T" ["A"; "B"]%string))))
               sending)))
  = inr ["A"; "B"]%string
  /\ card_paragraphs
       (reformattedResult
          (app (step (GenerateContentSettled 1 (Response (Some (body_of "T" ["A"; "B"]%string))))
                  reformatting_now)))
     = inr ["A"; "B"]%string.
Proof.
  split.
  - destruct (response_is_shown_by_paragraphs sending 0 "T" "A" ["B"%string] eq_refl
                ltac:(repeat constructor)) as [H _].
    exact (proj1 (proj2 (H example_artifact eq_refl))).
  - destruct (response_is_shown_by_paragraphs reformatting_now 1 "T" "A" ["B"%string] eq_refl
                ltac:(repeat constructor)) as [_ H].
    exact (proj1 (proj2 (H {| transcription := false; reformatting := false |} eq_refl))).
Defined.

End Padding.

(* ===================================================================== *)
(** ** Further properties: spinners, calls and clicks *)
(* ===================================================================== *)

Section Pending.

Lemma count_insert (f : Task -> bool) (l : list Task) (i : nat) (t t' : Task) :
  l !! i = Some t -> f t' = f t ->
  length (List.filter f (<[i := t']> l)) = length (List.filter f l).
Proof.
  revert i. induction l as [|a l IH]; intros [|i] H E; try discriminate H.
  - cbn in H. injection H as ->. cbn. rewrite E. now destruct (f t).
  - change (<[S i := t']> (a :: l)) with (a :: <[i := t']> l). cbn [List.filter].
    destruct (f a); cbn [length]; now rewrite (IH i H E).
Qed.

Lemma step_pending (e : Event) (w : World) :
  display_invariant w -> pending_invariant w -> pending_invariant (step e w).
Proof.
  intros (Ht & Hr & Hc) (Hs & Hf).
  assert (Hlook : forall i t, tasks (browser w) !! i = Some t -> captured_idle t).
  { intros i t H. eapply Forall_lookup_1; eassumption. }
  unfold pending_invariant, sends_under_way, reformats_in_flight in *.
  by_cases_of e;
    repeat match goal with
           | H : tasks (browser w) !! _ = Some _ |- _ =>
               pose proof (Hlook _ _ H) as ?Hcap; cbn in *;
               first [ erewrite !(count_insert _ _ _ _ _ H) by reflexivity | idtac ];
               revert H
           end; intros;
    rewrite ?in_flight_app; cbn;
    split; intros; try congruence; try lia;
    first [ specialize (Hs ltac:(assumption)); lia
          | specialize (Hf ltac:(assumption)); lia
          | idtac ].
Qed.

Lemma run_pending (es : list Event) (w : World) :
  display_invariant w -> pending_invariant w -> pending_invariant (run es w).
Proof.
  revert w. induction es as [|e es IH]; intros w Hd Hp; cbn; [assumption|].
  apply IH; [now apply step_display|now apply step_pending].
Qed.

(** X15.  A spinner has a call behind it: in every state the page reaches,
    while the transcribing flag is set a send is suspended at one of its two
    awaits, and while the reformatting flag is set a reformat is suspended at
    its await. *)
Theorem a_spinner_has_a_call_behind_it (ai : GoogleGenAI) (t0 : Z) (es : list Event) :
  let w := run es (init ai t0) in
  (transcription (isLoading (app w)) = true -> (0 < sends_under_way w)%nat)
  /\ (reformatting (isLoading (app w)) = true -> (0 < reformats_in_flight w)%nat).
Proof.
  apply run_pending; [apply init_display|].
  split; intros H; discriminate H.
Qed.

Lemma a_spinner_has_a_call_behind_it_witness :
  (0 < sends_under_way (run record_and_send page0))%nat
  /\ (0 < reformats_in_flight (run record_to_reformat page0))%nat.
Proof.
  split.
  - apply (a_spinner_has_a_call_behind_it example_ai 0 record_and_send). reflexivity.
  - apply (a_spinner_has_a_call_behind_it example_ai 0 record_to_reformat). reflexivity.
Defined.

End Pending.

Section Calls.

(** X16.  Only an encoded recording and a submit of the reformat form can make
    a remote call, and each makes at most one: no other event, and so no
    failure of a call, adds a request. *)
Theorem calls_are_never_repeated (e : Event) (w : World) :
  (may_call e = false -> requests (browser (step e w)) = requests (browser w))
  /\ exists calls, requests (browser (step e w)) = requests (browser w) ++ calls
                   /\ (length calls <= 1)%nat.
Proof.
  split.
  - intros H. by_cases_of e; try reflexivity; discriminate H.
  - by_cases_of e;
      first [ now (exists []; rewrite app_nil_r; split; [reflexivity|cbn; lia])
            | eexists [_]; split; [reflexivity|cbn; lia] ].
Qed.

Lemma calls_are_never_repeated_witness :
  requests (browser (step (GenerateContentSettled 1 Rejected)
                       (run (record_and_send ++ [BlobToBase64Settled 1 (Some "GkXfow=="%string)])
                          page0)))
  = requests (browser (run (record_and_send ++ [BlobToBase64Settled 1 (Some "GkXfow=="%string)])
                         page0)).
Proof.
  apply (calls_are_never_repeated (GenerateContentSettled 1 Rejected)). reflexivity.
Defined.

Lemma click_twice (d : World -> bool) (h h' : World -> World) (w : World) :
  (d w = false -> d (h w) = true \/ (h w = w /\ h' w = w)) ->
  click (d (click (d w) h w)) h' (click (d w) h w) = click (d w) h w.
Proof.
  intros H. unfold click. destruct (d w) eqn:E; [now rewrite E|].
  destruct (H eq_refl) as [E'|[E1 E2]]; [now rewrite E'|].
  rewrite E1, E. congruence.
Qed.

Lemma stopped_by_handleStop (w : World) : recordingState (pane (handleStop w)) = Stopped.
Proof.
  unfold_handlers. unfold MediaRecorder_stop. repeat (case_match; simplify_eq/=); reflexivity.
Qed.

Lemma idle_by_handleCancel (w : World) : recordingState (pane (handleCancel w)) = Idle.
Proof. unfold_handlers. repeat (case_match; simplify_eq/=); reflexivity. Qed.

(** X17.  Stop, Cancel, Send, Clear and the reformat form answer one click: a
    second one right after the first changes nothing, whatever the state,
    and so does a second submit with other options. *)
Theorem a_second_click_does_nothing (w : World) (o o' : ReformatOptions) :
  step ClickStop (step ClickStop w) = step ClickStop w
  /\ step ClickCancel (step ClickCancel w) = step ClickCancel w
  /\ step ClickSend (step ClickSend w) = step ClickSend w
  /\ step ClickClear (step ClickClear w) = step ClickClear w
  /\ step (SubmitReformat o') (step (SubmitReformat o) w) = step (SubmitReformat o) w.
Proof.
  repeat split.
  - apply (click_twice (fun w => isBusy w || negb (canStop w)) handleStop handleStop).
    intros _. left. unfold canStop. rewrite stopped_by_handleStop. apply orb_true_r.
  - apply (click_twice (fun w => isBusy w || negb (canCancel w)) handleCancel handleCancel).
    intros _. left. unfold canCancel. rewrite idle_by_handleCancel. apply orb_true_r.
  - apply (click_twice (fun w => isBusy w || negb (canSend w)) handleSend handleSend).
    intros _. unfold handleSend. destruct (audioBlob (pane w)); [left|right; now split].
    apply orb_true_r.
  - apply (click_twice
             (fun w => negb (truthy (transcriptionResult (app w))
                          || truthy (reformattedResult (app w))))
             handleClear handleClear).
    intros _. left. reflexivity.
  - apply (click_twice
             (fun w => negb (truthy (transcriptionResult (app w)))
                       || reformatting (isLoading (app w)))
             (handleReformat o) (handleReformat o')).
    intros H. apply orb_false_elim in H as [H _]. left.
    unfold handleReformat. rewrite H. apply orb_true_r.
Qed.

End Calls.



(* ===================================================================== *)
(** ** Further properties: the clock of the recording pane *)
(* ===================================================================== *)

Section Clock.

Lemma Forall_List_filter {A : Type} (P : A -> Prop) (f : A -> bool) (l : list A) :
  Forall P l -> Forall P (List.filter f l).
Proof.
  induction 1 as [|a l Ha Hl IH]; cbn; [constructor|].
  destruct (f a); [constructor|]; assumption.
Qed.

Lemma assoc_Forall (P : nat * Z -> Prop) (id : nat) (l : list (nat * Z)) (v : Z) :
  Forall P l -> assoc id l = Some v -> exists k, P (k, v).
Proof.
  induction 1 as [|[k x] l Ha Hl IH]; cbn; [discriminate|].
  destruct (Nat.eqb id k); [intros [= <-]; eauto|exact IH].
Qed.

Lemma step_time (e : Event) (w : World) :
  steady e = true -> time_invariant w -> time_invariant (step e w).
Proof.
  intros Hs (He & Hi & Ht).
  assert (Hlook : forall i t, tasks (browser w) !! i = Some t -> resumes_from t).
  { intros i t H. eapply Forall_lookup_1; eassumption. }
  assert (Hms : forall ms, e = Elapse ms -> 0 <= ms).
  { intros ms ->. now apply Z.leb_le. }
  clear Hs. unfold time_invariant.
  by_cases_of e;
    repeat match goal with
           | H : tasks (browser w) !! _ = Some _ |- _ => apply Hlook in H; cbn in H
           | H : assoc _ (intervals (browser w)) = Some _ |- _ =>
               apply (assoc_Forall _ _ _ _ Hi) in H as [? H]; cbn in H
           | H : forall ms, Elapse _ = Elapse ms -> _ |- _ => specialize (H _ eq_refl)
           end;
    (split; [|split]);
    try assumption;
    repeat first
      [ assumption
      | apply Forall_app; split
      | apply Forall_insert
      | apply Forall_List_filter
      | apply Forall_cons; split
      | exact I
      | progress cbn
      | lia
      | apply Z.div_pos; lia
      | eapply Forall_impl; [exact Hi|cbn; intros; lia]
      | constructor ].
Qed.

Lemma run_time (es : list Event) (w : World) :
  forallb steady es = true -> time_invariant w -> time_invariant (run es w).
Proof.
  revert w. induction es as [|e es IH]; intros w Hs H; cbn; [assumption|].
  cbn in Hs. apply andb_prop in Hs as [He Hes]. apply IH; [assumption|].
  now apply step_time.
Qed.

(** X3.  As long as the wall clock is not set back, the elapsed time is
    never negative, whatever else the page goes through: late ticks, clicks
    in any order, refused or repeated requests for the microphone; and no
    running timer was started after the present time. *)
Theorem steady_clock_keeps_elapsed_time_positive (ai : GoogleGenAI) (t0 : Z)
    (es : list Event) :
  forallb steady es = true ->
  let w := run es (init ai t0) in
  0 <= elapsedTime (pane w)
  /\ Forall (fun timer => snd timer <= now (browser w)) (intervals (browser w)).
Proof.
  intros Hs w.
  assert (H : time_invariant w).
  { apply run_time; [assumption|]. repeat split; cbn; [lia|constructor|constructor]. }
  destruct H as (H & Hi & _). split; assumption.
Qed.

Lemma steady_clock_keeps_elapsed_time_positive_witness :
  forallb steady (session example_chunk 1 250 1000 1000 1000 400 7000 1200 900 100) = true
  /\ 0 <= elapsedTime
            (pane (run (session example_chunk 1 250 1000 1000 1000 400 7000 1200 900 100)
                     page0)).
Proof.
  split; [reflexivity|].
  exact (proj1 (steady_clock_keeps_elapsed_time_positive example_ai 0
                  (session example_chunk 1 250 1000 1000 1000 400 7000 1200 900 100)
                  eq_refl)).
Defined.

(** The hypothesis is needed: [Date.now()] is wall-clock time, and when it
    is set back while a timer runs, the next tick stores a negative time,
    which is shown with its signs. *)
Example clock_set_back_shows_a_negative_time :
  elapsedTime (pane (run clock_set_back page0)) = -2
  /\ formatTime (elapsedTime (pane (run clock_set_back page0))) = "-1:-2"%string.
Proof. split; reflexivity. Qed.

Lemma tick_is_monotone_witness :
  elapsedTime (pane recording_now)
  <= elapsedTime (pane (run [Elapse 1500; IntervalFires 1] recording_now)).
Proof.
  exact (proj1 (tick_is_monotone recording_now 1 0 1500 eq_refl ltac:(cbn; lia))).
Defined.

Lemma pause_stops_the_timer_witness :
  assoc 1 (intervals (browser (handlePause recording_now))) = None.
Proof.
  apply (pause_stops_the_timer recording_now 1);
    [reflexivity|intros H; vm_compute in H; discriminate H].
Defined.

Lemma resume_continues_witness :
  elapsedTime
    (pane (run [Elapse 2500; IntervalFires (nextHandle (browser paused_now))]
             (handleRecord paused_now)))
  = elapsedTime (pane paused_now) + Z.max 0 2500 / 1000.
Proof.
  apply (resume_continues paused_now 2500);
    [reflexivity|intros H; vm_compute in H; discriminate H|reflexivity].
Defined.

End Clock.

(* ===================================================================== *)
(** ** Further properties: what always holds of the two components *)
(* ===================================================================== *)

Section Always.

Lemma step_error (e : Event) (w : World) : error_invariant w -> error_invariant (step e w).
Proof.
  unfold error_invariant. intros H.
  by_cases_of e; try assumption; auto.
Qed.

Lemma step_blob (e : Event) (w : World) : blob_invariant w -> blob_invariant (step e w).
Proof.
  intros (Hb & Ht). unfold blob_invariant.
  by_cases_of e; (split; [intros b0 Hb0|intros i0 t0 b0 Hl Hb0]); cbn in *;
    try discriminate; eauto;
    repeat match goal with
           | H : (_ ++ [_]) !! _ = Some _ |- _ =>
               apply lookup_app_Some in H as [H|[_ H]];
               [|apply list_lookup_singleton_Some in H as [_ <-]; cbn in *]
           | H : <[_ := _]> _ !! _ = Some _ |- _ =>
               apply list_lookup_insert_Some in H as [(-> & <- & _)|[_ H]]; cbn in *
           | H : Some _ = Some _ |- _ => injection H as <-
           end;
    try discriminate; eauto;
    try (apply in_or_app; eauto; right; left; congruence);
    congruence.
Qed.



Lemma run_invariant (P : World -> Prop) (es : list Event) (w : World) :
  (forall e w, P w -> P (step e w)) -> P w -> P (run es w).
Proof.
  intros Hstep. revert w. induction es as [|e es IH]; intros w H; cbn; [assumption|].
  apply IH, Hstep, H.
Qed.

(** X18.  Whatever the page goes through, the error it holds is none, or one
    of the two fixed messages of the catch blocks: nothing of a failed call
    reaches the error box. *)
Theorem errors_are_one_of_two_messages (ai : GoogleGenAI) (t0 : Z) (es : list Event) :
  let w := run es (init ai t0) in
  error (app w) = None
  \/ error (app w) = Some transcription_failed
  \/ error (app w) = Some reformat_failed.
Proof.
  apply (run_invariant error_invariant); [exact (fun e w => step_error e w)|now left].
Qed.

(** X19.  Only recorded audio is sent: in every state the page reaches, the
    blob ready to be sent, and the blob held by every send under way, is one
    of the blobs built when a recorder stopped. *)
Theorem only_recorded_blobs_are_sent (ai : GoogleGenAI) (t0 : Z) (es : list Event) :
  let w := run es (init ai t0) in
  (forall b, audioBlob (pane w) = Some b -> In b (artifacts (browser w)))
  /\ (forall i t b, tasks (browser w) !! i = Some t -> blob_of t = Some b ->
                    In b (artifacts (browser w))).
Proof.
  apply (run_invariant blob_invariant); [exact (fun e w => step_blob e w)|].
  split; [intros b H; discriminate H|intros i t b H; discriminate H].
Qed.

Lemma only_recorded_blobs_are_sent_witness :
  In example_artifact (artifacts (browser recorded))
  /\ In example_artifact (artifacts (browser (run record_and_send page0))).
Proof.
  split.
  - exact (proj1 (only_recorded_blobs_are_sent example_ai 0
                    [ClickRecordPause; UserMediaSettled 0 true; ClickStop;
                     RecorderStops example_chunk])
             example_artifact eq_refl).
  - exact (proj2 (only_recorded_blobs_are_sent example_ai 0 record_and_send)
             1%nat (AwaitBlobToBase64 example_artifact) example_artifact eq_refl eq_refl).
Defined.



(** The hypothesis is needed.  When the [start()] of a second recorder
    throws, that recorder stays in the ref, inactive, while the session is
    Recording on the first: a click on Pause then calls [pause()] on an
    inactive recorder, which throws, and the click changes nothing. *)
Example refused_start_makes_pause_throw :
  recordingState (pane (run second_start_refused page0)) = Recording
  /\ mediaRecorderRef (refs (run second_start_refused page0)) = Some inactive
  /\ optional_call MediaRecorder_pause (run second_start_refused page0)
     = inl InvalidStateError
  /\ step ClickRecordPause (run second_start_refused page0) = run second_start_refused page0.
Proof.
  split; [|split; [|split]]; vm_compute; reflexivity.
Qed.

End Always.
